(** * Tracecat execution core: registry, invocation controller, history correlator

    A shallow embedding of three source files:
    - [tracecat/experimental/actions/_registry.py]  (module [Registry]),
    - [tracecat/dsl/action.py]                      (module [Action]),
    - [tracecat/workflow/models.py]                 (module [Correlator]),
    followed by the properties of the specification that concern them.

    Python exceptions are modelled as explicit results ([Ret] / [Raise]);
    the registry, a dict mutated in place, is threaded through [register]
    as a [gmap]; the observable effects of a call (opening the secret
    sandbox, running the implementation, sleeping, dispatching to the
    execution client) are recorded in a trace, so that "before" and
    "never invoked" become statements about that trace. *)

From Stdlib Require Import ZArith String Ascii List Lia.
From stdpp Require Import base gmap strings list fin_maps pretty.

Open Scope string_scope.

(** ** Python values shared by the three modules *)

Module Py.

(** [tracecat.auth.Role]: only the two attributes the sources touch. *)
Record Role := { role_type : string; role_user_id : option string }.

(** A small universe of Python values, enough for keyword arguments.
    [VObject] stands for any other object: not a dict, and not an instance
    of the types above. *)
Inductive PyVal :=
| VNone
| VBool (b : bool)
| VInt (z : Z)
| VStr (s : string)
| VRole (r : Role)
| VObject (repr : string).

(** Parameter annotations.  [TAny] stands for [typing.Any]. *)
Inductive PyType := TAny | TNoneType | TBool | TInt | TStr | TRole.

(** Strict-mode instance check of pydantic: no coercion at all; in
    particular a [bool] is not accepted where an [int] is declared. For
    the model class [Role] pydantic also accepts a dict from which it can
    build the model; the universe above has no dict, so [TRole] is checked
    on instances only. *)
Definition strict_isinstance (v : PyVal) (t : PyType) : bool :=
  match t, v with
  | TAny, _ => true
  | TNoneType, VNone => true
  | TBool, VBool _ => true
  | TInt, VInt _ => true
  | TStr, VStr _ => true
  | TRole, VRole _ => true
  | _, _ => false
  end.

(** The newline character of Python's ["\n"]. *)
Definition nl : string := String "010"%char EmptyString.

End Py.
Export Py.

(** ** The dynamic action registry ([_registry.py]) *)

Module Registry.

(** Messages of the three [ValueError]s raised by the registry:
    - [MustUseKeywordArgs]: "UDF must be called with keyword arguments."
    - [AlreadyRegistered key]: f"UDF {key!r} is already registered."
    - [NotACallable]: "Provided object is not a callable function." *)
Inductive ValueErrorMsg :=
| MustUseKeywordArgs
| AlreadyRegistered (key : string)
| NotACallable.

(** One line of a pydantic [ValidationError]. *)
Inductive ErrorType := missing | wrong_type | extra_forbidden.

Inductive PyError :=
| ValueError (msg : ValueErrorMsg)
| ValidationError (errors : list (string * ErrorType))
| KeyError (key : string)
| TypeError (msg : string)
| AttributeError (msg : string)
| OtherError (cls msg : string).

Inductive Outcome (A : Type) :=
| Ret (a : A)
| Raise (e : PyError).
Arguments Ret {A} a.
Arguments Raise {A} e.

(** The error kinds of the specification, as the exceptions that carry
    them in the source. *)
Definition KeywordArgsRequired : PyError := ValueError MustUseKeywordArgs.
Definition DuplicateKey (key : string) : PyError := ValueError (AlreadyRegistered key).
Definition NotCallable : PyError := ValueError NotACallable.
Definition UnknownAction (key : string) : PyError := KeyError key.

(** What [inspect.signature] shows of one parameter.  Parameters are
    taken to be ordinary named ones (no [*args], [**kwargs] or
    positional-only parameter). [p_docs] lists the [Doc] entries of the
    annotation's [__metadata__]. *)
Record Param := {
  p_name : string;
  p_annotation : PyType;
  p_default : option PyVal;
  p_docs : list string
}.

(** The object handed to the decorator. It is taken to have a [__name__]
    and, when it is callable, a signature from which [create_model] can
    build a class; what the source raises otherwise (the [AttributeError]
    of [fn.__name__], the schema errors of pydantic) is outside this
    model. *)
Record PyFunction := {
  fn_name : string;                                (* fn.__name__ *)
  fn_callable : bool;                              (* callable(fn) *)
  fn_is_coroutine : bool;                          (* inspect.iscoroutinefunction(fn) *)
  fn_params : list Param;                          (* inspect.signature(fn).parameters *)
  fn_return_annotation : option PyType;            (* None: sig.empty *)
  fn_body : gmap string PyVal -> Outcome PyVal     (* the body, on bound arguments *)
}.

(** A pydantic model class, as [create_model] builds it. *)
Inductive Extra := ExtraIgnore | ExtraAllow | ExtraForbid.

Record Field := {
  f_name : string;
  f_type : PyType;
  f_default : option PyVal                         (* None: the Ellipsis, required *)
}.

Record ModelCls := {
  model_name : string;
  model_extra : Extra;                             (* model_config['extra'] *)
  model_fields : list Field
}.

(** [create_model] on a name and the field definitions: no [__config__]
    is passed, so the
    class gets pydantic's default configuration, whose [extra] is
    ['ignore']. *)
Definition create_model (name : string) (fields : list Field) : ModelCls :=
  {| model_name := name; model_extra := ExtraIgnore; model_fields := fields |}.

(** [cls.model_validate(obj, strict=True)] on a dict. Every declared field
    is looked up by name: a present value is checked strictly against the
    field's type, an absent one is an error unless the field has a
    default.  Keys that are no field are treated as the class's [extra]
    setting says.  All errors are collected. *)
Definition validate_field (kwargs : gmap string PyVal) (f : Field)
  : list (string * ErrorType) :=
  match kwargs !! f_name f with
  | Some v => if strict_isinstance v (f_type f) then [] else [(f_name f, wrong_type)]
  | None =>
      match f_default f with
      | Some _ => []
      | None => [(f_name f, missing)]
      end
  end.

Definition is_field (cls : ModelCls) (k : string) : bool :=
  bool_decide (k ∈ (f_name <$> model_fields cls)).

Definition validate_extras (cls : ModelCls) (kwargs : gmap string PyVal)
  : list (string * ErrorType) :=
  match model_extra cls with
  | ExtraForbid =>
      (fun k => (k, extra_forbidden)) <$>
        filter (fun k => is_field cls k = false) (fst <$> map_to_list kwargs)
  | _ => []
  end.

Definition model_validate (cls : ModelCls) (kwargs : gmap string PyVal)
  : Outcome unit :=
  match (flat_map (validate_field kwargs) (model_fields cls)
         ++ validate_extras cls kwargs)%list with
  | [] => Ret tt
  | errors => Raise (ValidationError errors)
  end.

(** The closure [wrapped_fn]: the variables it captures. [self] is the
    singleton registry, read again at every call. *)
Record WrappedFn := {
  w_key : string;
  w_fn : PyFunction;
  w_secrets : option (list string)
}.

Record RegisteredUDF := {
  fn : WrappedFn;
  description : string;
  namespace : string;
  version : option string;
  secrets : option (list string);
  args_cls : ModelCls;
  args_docs : gmap string string;
  rtype_cls : PyType;
  rtype_adapter : PyType;
  metadata : gmap string PyVal
}.

(** [_Registry._udf_registry] *)
Abbreviation Registry := (gmap string RegisteredUDF).

(** [__contains__] and [get] / [__getitem__] *)
Definition contains (self : Registry) (name : string) : bool :=
  bool_decide (is_Some (self !! name)).

Definition get (self : Registry) (name : string) : Outcome RegisteredUDF :=
  match self !! name with
  | Some udf => Ret udf
  | None => Raise (KeyError name)
  end.

(** What a call leaves behind. *)
Inductive Event :=
| SandboxEnter (role : Role) (secrets : option (list string))
| Invoke (name : string) (bound : gmap string PyVal)
| SandboxExit.

Definition is_invoke (ev : Event) : bool :=
  match ev with Invoke _ _ => true | _ => false end.

(** The implementation ran at some point of the trace. *)
Definition invoked (trace : list Event) : bool := existsb is_invoke trace.

(** The call [fn] with the dict unpacked as keywords: Python binds the
    keywords to the parameters before
    the body runs; an unexpected keyword or a missing argument is a
    [TypeError] of the call itself. *)
Definition bind_arguments (params : list Param) (kwargs : gmap string PyVal)
  : Outcome (gmap string PyVal) :=
  if negb (bool_decide (dom kwargs ⊆ list_to_set (p_name <$> params)))
  then Raise (TypeError "got an unexpected keyword argument")
  else if negb (forallb (fun p => bool_decide (is_Some (kwargs !! p_name p))
                                 || bool_decide (is_Some (p_default p))) params)
  then Raise (TypeError "missing required argument")
  else Ret (foldr (fun p m =>
                     match kwargs !! p_name p, p_default p with
                     | Some v, _ => <[p_name p := v]> m
                     | None, Some d => <[p_name p := d]> m
                     | None, None => m
                     end) ∅ params).

Definition py_call (f : PyFunction) (kwargs : gmap string PyVal)
  : Outcome PyVal * list Event :=
  match bind_arguments (fn_params f) kwargs with
  | Raise e => (Raise e, [])
  | Ret bound => (fn_body f bound, [Invoke (fn_name f) bound])
  end.

(** [Role(type="service")] *)
Definition service_role : Role := {| role_type := "service"; role_user_id := None |}.

Section WithExternals.

(** [slugify(namespace, separator="_")] of python-slugify. *)
Variable slugify : string -> string.

(** Modelled from the spec: [AuthSandbox] lives in
    [tracecat/experimental/actions/_sandbox.py], which is not among the
    sources. The spec describes a scoped guard that resolves and injects
    the declared secrets for one invocation and releases them on every
    exit path, letting the implementation's result or exception through
    unchanged. Entering it may fail (a secret cannot be resolved):
    [sandbox_enter] gives the exception raised then. *)
Variable sandbox_enter : Role -> option (list string) -> option PyError.

Definition udf_slug (func : PyFunction) (namespace : string) : string :=
  slugify namespace +:+ "__" +:+ fn_name func.

Definition _generate_model_from_function (func : PyFunction) (namespace : string)
  : ModelCls * PyType * PyType :=
  let fields :=
    (fun p => {| f_name := p_name p;
                 f_type := p_annotation p;
                 f_default := p_default p |}) <$> fn_params func in
  let input_model := create_model (udf_slug func namespace +:+ "_model") fields in
  let rtype := default TAny (fn_return_annotation func) in
  (input_model, rtype, rtype).

Definition _get_signature_docs (f : PyFunction) : gmap string string :=
  foldl (fun docs p =>
           foldl (fun docs d => <[p_name p := d]> docs) docs (p_docs p))
        ∅ (fn_params f).

(** The nested [_validate_args]. *)
Definition _validate_args (self : Registry) (key : string)
           (args : list PyVal) (kwargs : gmap string PyVal) : Outcome unit :=
  if (0 <? length args)%nat then Raise (ValueError MustUseKeywordArgs)
  else match get self key with
       | Raise e => Raise e
       | Ret udf => model_validate (args_cls udf) kwargs
       end.

(** [wrapped_fn], the same for the synchronous and the asynchronous
    variant: validate, pop ["__role"], open the sandbox, call [fn]. *)
Definition wrapped_fn (self : Registry) (w : WrappedFn)
           (args : list PyVal) (kwargs : gmap string PyVal)
  : Outcome PyVal * list Event :=
  match _validate_args self (w_key w) args kwargs with
  | Raise e => (Raise e, [])
  | Ret _ =>
      let role := default (VRole service_role) (kwargs !! "__role") in
      let kwargs := delete "__role" kwargs in
      match role with
      | VRole role =>
          match sandbox_enter role (w_secrets w) with
          | Some e => (Raise e, [SandboxEnter role (w_secrets w)])
          | None =>
              let '(r, tr) := py_call (w_fn w) kwargs in
              (r, ([SandboxEnter role (w_secrets w)] ++ tr ++ [SandboxExit])%list)
          end
      | _ => (Raise (AttributeError "user_id"), [])
      end
  end.

(** The keyword arguments of [register] itself. *)
Record RegisterArgs := {
  r_description : string;
  r_secrets : option (list string);
  r_namespace : string;
  r_version : option string;
  r_register_kwargs : gmap string PyVal
}.

Definition register_key (a : RegisterArgs) (f : PyFunction) : string :=
  r_namespace a +:+ "." +:+ fn_name f.

(** [register(...)(fn)]: the decorator applied to [fn]. The registry
    is returned along with the result; it is the one passed in unless
    the registration succeeds. *)
Definition register (a : RegisterArgs) (f : PyFunction) (self : Registry)
  : Outcome WrappedFn * Registry :=
  let key := register_key a f in
  let wrapped := {| w_key := key; w_fn := f; w_secrets := r_secrets a |} in
  if contains self key then (Raise (ValueError (AlreadyRegistered key)), self)
  else if negb (fn_callable f) then (Raise (ValueError NotACallable), self)
  else
    let '(args_cls, rtype_cls, rtype_adapter) :=
      _generate_model_from_function f (r_namespace a) in
    let args_docs := _get_signature_docs f in
    (Ret wrapped,
     <[key := {| fn := wrapped;
                 namespace := r_namespace a;
                 version := r_version a;
                 description := r_description a;
                 secrets := r_secrets a;
                 args_cls := args_cls;
                 args_docs := args_docs;
                 rtype_cls := rtype_cls;
                 rtype_adapter := rtype_adapter;
                 metadata := r_register_kwargs a |}]> self).

(** [w] is the wrapped callable of an action registered in [self]. *)
Definition registered (self : Registry) (w : WrappedFn) : Prop :=
  exists udf, self !! w_key w = Some udf
              /\ fn udf = w
              /\ args_cls udf
                 = (_generate_model_from_function (w_fn w) (namespace udf)).1.1.

End WithExternals.

End Registry.

(** ** Data of the workflow DSL ([tracecat.dsl.models]) *)

Module Dsl.

(** One workflow step. [start_delay] is a duration in time units. *)
Record ActionStatement := {
  id : option string;
  ref : string;
  action : string;
  args : gmap string PyVal;
  title : string;
  description : string;
  retry_policy : PyVal;
  start_delay : Z
}.

Record RunContext := {
  wf_id : string;
  wf_exec_id : string;
  environment : string
}.

Record RunActionInput := {
  task : ActionStatement;
  run_context : RunContext
}.

Record DSLTaskErrorInfo := {
  info_ref : string;
  info_message : string;
  info_type : string;
  info_attempt : Z
}.

End Dsl.
Export Dsl.

(** ** The action invocation controller ([dsl/action.py]) *)

Module Action.

(** [temporalio.exceptions.ApplicationError(message, *details, type=None,
    non_retryable=False)] *)
Record ApplicationError := {
  message : string;
  details : list DSLTaskErrorInfo;
  type : option string;
  non_retryable : bool
}.

(** What an action asks of the executor when it fails. *)
Inductive RetryIntent := Retryable | NonRetryable.

(** The surfaced failure agrees with the intent of the action. *)
Definition preserves_intent (intent : RetryIntent) (f : ApplicationError) : Prop :=
  non_retryable f = match intent with NonRetryable => true | Retryable => false end.

(** The exceptions the execution client can raise, by the [except] clause
    that catches them. [cls] is [e.__class__.__name__], [text] is [str(e)].

    Modelled from the spec: the class [RegistryActionError] is declared in
    [tracecat/types/exceptions.py], which is not among the sources. The
    spec describes a domain action error as carrying a human-readable
    detail and an explicit retryable/non-retryable intent set by the
    action; [detail] is the attribute [e.detail] the source logs. *)
Inductive PyExc :=
| RegistryActionError (cls text : string) (detail : PyVal) (intent : RetryIntent)
| NestedApplicationError (cls text : string) (e : ApplicationError)
| OtherException (cls text : string)
| BaseExceptionOnly (cls text : string).

(** [isinstance(e, Exception)]: [asyncio.CancelledError], [KeyboardInterrupt]
    and the like derive from [BaseException] only. *)
Definition is_Exception (e : PyExc) : bool :=
  match e with BaseExceptionOnly _ _ => false | _ => true end.

Definition class_name (e : PyExc) : string :=
  match e with
  | RegistryActionError cls _ _ _ | NestedApplicationError cls _ _
  | OtherException cls _ | BaseExceptionOnly cls _ => cls
  end.

Definition str (e : PyExc) : string :=
  match e with
  | RegistryActionError _ text _ _ | NestedApplicationError _ text _
  | OtherException _ text | BaseExceptionOnly _ text => text
  end.

Inductive Outcome (A : Type) :=
| Ret (a : A)
| Raise (e : PyExc).
Arguments Ret {A} a.
Arguments Raise {A} e.

(** How an activity ends: with a value, with the [ApplicationError] it
    raises itself, or with an exception it does not catch. *)
Inductive Result (A : Type) :=
| Returned (a : A)
| Failed (f : ApplicationError)
| Propagated (e : PyExc).
Arguments Returned {A} a.
Arguments Failed {A} f.
Arguments Propagated {A} e.

Section WithClient.

(** [ActionRefHandle] and [StoreObjectPtr]: opaque here. *)
Variables Handle StoreObjectPtr : Type.

(** [tracecat.dsl.common.context_locator], not among the sources. *)
Variable context_locator : ActionStatement -> string -> string.

(** The surroundings of one attempt: the attempt number of
    [activity.info()], the outcome of [asyncio.sleep] ([None] when the
    delay elapses, the exception when the attempt is cancelled while it
    waits), and the execution client. *)
Record World := {
  attempt : Z;
  sleep : Z -> option PyExc;
  run_action_memory_backend : Role -> RunActionInput -> Outcome PyVal;
  run_action_store_backend : Role -> RunActionInput -> Outcome Handle;
  to_pointer : Handle -> Outcome StoreObjectPtr
}.

Inductive Event :=
| Sleep (d : Z)
| DispatchMemory (role : Role) (input : RunActionInput)
| DispatchStore (role : Role) (input : RunActionInput).

Definition is_sleep (ev : Event) : bool :=
  match ev with Sleep _ => true | _ => false end.

Definition is_dispatch (ev : Event) : bool :=
  match ev with Sleep _ => false | _ => true end.

(** Every dispatch of the trace comes after a suspension of [d]. *)
Definition sleeps_before_dispatch (d : Z) (trace : list Event) : Prop :=
  forall i ev, trace !! i = Some ev -> is_dispatch ev = true ->
               exists j, (j < i)%nat /\ trace !! j = Some (Sleep d).

Definition never_sleeps (trace : list Event) : Prop :=
  Forall (fun ev => is_sleep ev = false) trace.

Definition _contextualize_message (task : ActionStatement) (msg : string)
           (attempt : Z) (loc : string) : string :=
  "[" +:+ context_locator task loc +:+ "] (Attempt " +:+ pretty attempt +:+ ")"
      +:+ nl +:+ nl +:+ msg.

(** The default of the keyword [loc]. *)
Definition default_loc : string := "run_action".

(** "Add a delay": the part both activities run before the [try]. *)
Definition start_delay_phase (w : World) (task : ActionStatement)
  : option PyExc * list Event :=
  if (0 <? start_delay task)%Z
  then (sleep w (start_delay task), [Sleep (start_delay task)])
  else (None, []).

(** The three [except] clauses of [run_action_activity], in order. *)
Definition classify_memory (task : ActionStatement) (attempt : Z) (e : PyExc)
  : Result PyVal :=
  match e with
  | RegistryActionError kind msg _ _ =>
      let err_locator := _contextualize_message task msg attempt default_loc in
      let err_info := {| info_ref := ref task; info_message := msg;
                         info_type := kind; info_attempt := attempt |} in
      Failed {| message := err_locator; details := [err_info];
                type := Some kind; non_retryable := false |}
  | NestedApplicationError cls text e =>
      let err_info :=
        {| info_ref := ref task; info_message := text;
           info_type := match type e with
                        | Some t => if String.eqb t "" then cls else t
                        | None => cls
                        end;
           info_attempt := attempt |} in
      Failed {| message := _contextualize_message task (message e) attempt default_loc;
                details := [err_info];
                type := type e; non_retryable := non_retryable e |}
  | OtherException kind text =>
      let raw_msg := kind +:+ " occurred:" +:+ nl +:+ text in
      let err_info := {| info_ref := ref task; info_message := raw_msg;
                         info_type := kind; info_attempt := attempt |} in
      Failed {| message := _contextualize_message task raw_msg attempt default_loc;
                details := [err_info];
                type := Some kind; non_retryable := true |}
  | BaseExceptionOnly _ _ => Propagated e
  end.

Definition run_action_activity (w : World) (input : RunActionInput) (role : Role)
  : Result PyVal * list Event :=
  let task := task input in
  let attempt := attempt w in
  match start_delay_phase w task with
  | (Some e, tr) => (Propagated e, tr)
  | (None, tr) =>
      (match run_action_memory_backend w role input with
       | Ret v => Returned v
       | Raise e => classify_memory task attempt e
       end, (tr ++ [DispatchMemory role input])%list)
  end.

(** The single [except Exception] clause of the store-mode activity. *)
Definition classify_store (task : ActionStatement) (attempt : Z) (e : PyExc)
  : Result StoreObjectPtr :=
  if is_Exception e then
    let kind := class_name e in
    Failed {| message := _contextualize_message task (str e) attempt default_loc;
              details := [{| info_ref := ref task; info_message := str e;
                             info_type := kind; info_attempt := attempt |}];
              type := None; non_retryable := false |}
  else Propagated e.

Definition run_action_with_store_activity (w : World) (input : RunActionInput)
           (role : Role) : Result StoreObjectPtr * list Event :=
  let attempt := attempt w in
  match start_delay_phase w (task input) with
  | (Some e, tr) => (Propagated e, tr)
  | (None, tr) =>
      (match run_action_store_backend w role input with
       | Ret handle =>
           match to_pointer w handle with
           | Ret ptr => Returned ptr
           | Raise e => classify_store (task input) attempt e
           end
       | Raise e => classify_store (task input) attempt e
       end, (tr ++ [DispatchStore role input])%list)
  end.

End WithClient.

Arguments attempt {Handle StoreObjectPtr} w.
Arguments sleep {Handle StoreObjectPtr} w d.
Arguments run_action_memory_backend {Handle StoreObjectPtr} w role input.
Arguments run_action_store_backend {Handle StoreObjectPtr} w role input.
Arguments to_pointer {Handle StoreObjectPtr} w h.
Arguments start_delay_phase {Handle StoreObjectPtr} w task.
Arguments run_action_activity {Handle StoreObjectPtr} context_locator w input role.
Arguments run_action_with_store_activity
  {Handle StoreObjectPtr} context_locator w input role.
Arguments classify_store {StoreObjectPtr} context_locator task attempt e.

(** Modelled from the spec: [context_locator] is defined in
    [tracecat/dsl/common.py], which is not among the sources. The spec
    gives the locator inside the brackets of a contextualized message as
    [<namespace.action>@<ref>], the action key and the step's ref; it
    mentions no use of the second argument. *)
Definition context_locator (stmt : ActionStatement) (loc : string) : string :=
  action stmt +:+ "@" +:+ ref stmt.

End Action.

(** ** The execution-history correlator ([workflow/models.py]) *)

Module Correlator.

Inductive PyError :=
| ValueError (msg : string)
| IndexError (msg : string)
| JSONDecodeError (msg : string)
| ValidationError (msg : string).

Inductive Outcome (A : Type) :=
| Ret (a : A)
| Raise (e : PyError).
Arguments Ret {A} a.
Arguments Raise {A} e.

(** The error kind of the specification: both operations reject an event
    of a kind they do not handle with a [ValueError]. *)
Definition UnsupportedEventKind (e : PyError) : Prop :=
  exists msg, e = ValueError msg.

(** [temporalio.api.enums.v1.EventType]: the members the source names in
    [EventHistoryType], and the rest of the enumeration. *)
Inductive EventType :=
| EVENT_TYPE_WORKFLOW_EXECUTION_STARTED
| EVENT_TYPE_WORKFLOW_EXECUTION_COMPLETED
| EVENT_TYPE_WORKFLOW_EXECUTION_FAILED
| EVENT_TYPE_ACTIVITY_TASK_SCHEDULED
| EVENT_TYPE_ACTIVITY_TASK_STARTED
| EVENT_TYPE_ACTIVITY_TASK_COMPLETED
| EVENT_TYPE_ACTIVITY_TASK_FAILED
| EVENT_TYPE_OTHER (name : string).

#[global] Instance EventType_eq_dec : EqDecision EventType.
Proof. solve_decision. Defined.

(** ** Python's [str.split(sep)] and the starred unpacking *)

(** One pass from the left: at a position where [sep] starts, a new piece
    begins and the rest of [sep] is skipped; otherwise the character
    joins the current piece. The result is never empty. *)
Fixpoint split_go (sep : string) (skip : nat) (s : string) : list string :=
  match s with
  | EmptyString => [""]
  | String c s' =>
      match skip with
      | S k => split_go sep k s'
      | O =>
          if String.prefix sep s
          then "" :: split_go sep (String.length sep - 1) s'
          else match split_go sep 0 s' with
               | piece :: pieces => String c piece :: pieces
               | [] => [String c ""]
               end
      end
  end.

Definition split (s sep : string) : Outcome (list string) :=
  match sep with
  | EmptyString => Raise (ValueError "empty separator")
  | _ => Ret (split_go sep 0 s)
  end.

(** [*stem, leaf = parts] *)
Fixpoint unpack_last (parts : list string) : Outcome (list string * string) :=
  match parts with
  | [] => Raise (ValueError "not enough values to unpack")
  | [leaf] => Ret ([], leaf)
  | part :: rest =>
      match unpack_last rest with
      | Ret (stem, leaf) => Ret (part :: stem, leaf)
      | Raise e => Raise e
      end
  end.

Definition destructure_slugified_namespace (s delimiter : string)
  : Outcome (string * string) :=
  match split s delimiter with
  | Raise e => Raise e
  | Ret parts =>
      match unpack_last parts with
      | Raise e => Raise e
      | Ret (stem, leaf) => Ret (String.concat "." stem, leaf)
      end
  end.

(** The default of the keyword [delimiter]. *)
Definition default_delimiter : string := "__".

(** [c] occurs in [s]. *)
Fixpoint occurs (c : ascii) (s : string) : bool :=
  match s with
  | EmptyString => false
  | String c' s' => Ascii.eqb c c' || occurs c s'
  end.

Section WithDecoders.

(** Decoded JSON and protobuf messages are opaque. *)
Variables Json ProtoMsg Dict : Type.

(** [tracecat.dsl.workflow.UDFActionInput]: the recorded input of a
    run, of which the source reads the [task]. *)
Abbreviation UDFActionInput := RunActionInput.

(** [orjson.loads], the pydantic construction of a [UDFActionInput] from
    the decoded keywords, and protobuf's [MessageToDict]. *)
Variable orjson_loads : string -> Outcome Json.
Variable UDFActionInput_init : Json -> Outcome UDFActionInput.
Variable MessageToDict : ProtoMsg -> Dict.

Record Payload := { data : string }.
Record Payloads := { payloads : list Payload }.
Record ActivityTaskScheduledEventAttributes := { input : Payloads }.

(** The protobuf message [temporalio.api.failure.v1.Failure]. Reading a
    sub-message field of a protobuf message never gives [None]: a failure
    without cause has the empty message as its [cause]. *)
Record Failure := {
  failure_message : string;
  failure_stack_trace : string;
  failure_cause : ProtoMsg;
  failure_application_failure_info : ProtoMsg
}.

Record HistoryEvent := {
  event_id : Z;
  event_type : EventType;
  activity_task_scheduled_event_attributes : ActivityTaskScheduledEventAttributes;
  activity_task_failed_event_attributes : Failure;
  workflow_execution_failed_event_attributes : Failure
}.

Record EventGroup := {
  eg_event_id : Z;
  udf_namespace : string;
  udf_name : string;
  udf_key : string;
  action_id : option string;
  action_ref : string;
  action_title : string;
  action_description : string;
  action_input : UDFActionInput;
  action_result : option PyVal
}.

Record EventFailure := {
  ef_message : string;
  ef_stack_trace : string;
  ef_cause : option Dict;
  ef_application_failure_info : Dict
}.

(** [EventGroup.from_scheduled_activity] *)
Definition from_scheduled_activity (event : HistoryEvent) : Outcome EventGroup :=
  if negb (bool_decide (event_type event = EVENT_TYPE_ACTIVITY_TASK_SCHEDULED))
  then Raise (ValueError "Event is not an activity task scheduled event.")
  else
    match payloads (input (activity_task_scheduled_event_attributes event)) !! 0%nat with
    | None => Raise (IndexError "list index out of range")
    | Some payload =>
        match orjson_loads (data payload) with
        | Raise e => Raise e
        | Ret action_stmt_data =>
            match UDFActionInput_init action_stmt_data with
            | Raise e => Raise e
            | Ret action_input =>
                match destructure_slugified_namespace
                        (action (task action_input)) "." with
                | Raise e => Raise e
                | Ret (namespace, udf_name) =>
                    Ret {| eg_event_id := event_id event;
                           udf_namespace := namespace;
                           udf_name := udf_name;
                           udf_key := action (task action_input);
                           action_id := id (task action_input);
                           action_ref := ref (task action_input);
                           action_title := title (task action_input);
                           action_description := description (task action_input);
                           action_input := action_input;
                           action_result := None |}
                end
            end
        end
    end.

(** [EventFailure.from_history_event]. The test [failure.cause is not None]
    holds for every protobuf message, so the cause is converted on every
    path and the [else None] branch is never taken. *)
Definition from_history_event (event : HistoryEvent) : Outcome EventFailure :=
  match (if bool_decide (event_type event = EVENT_TYPE_ACTIVITY_TASK_FAILED)
         then Ret (activity_task_failed_event_attributes event)
         else if bool_decide (event_type event = EVENT_TYPE_WORKFLOW_EXECUTION_FAILED)
         then Ret (workflow_execution_failed_event_attributes event)
         else Raise (ValueError "Event type not supported for failure extraction."))
  with
  | Raise e => Raise e
  | Ret failure =>
      Ret {| ef_message := failure_message failure;
             ef_stack_trace := failure_stack_trace failure;
             ef_cause := Some (MessageToDict (failure_cause failure));
             ef_application_failure_info :=
               MessageToDict (failure_application_failure_info failure) |}
  end.

(** The same event with another list of recorded payloads. *)
Definition with_payloads (event : HistoryEvent) (ps : list Payload) : HistoryEvent :=
  {| event_id := event_id event;
     event_type := event_type event;
     activity_task_scheduled_event_attributes := {| input := {| payloads := ps |} |};
     activity_task_failed_event_attributes :=
       activity_task_failed_event_attributes event;
     workflow_execution_failed_event_attributes :=
       workflow_execution_failed_event_attributes event |}.

End WithDecoders.

Arguments failure_message {ProtoMsg} f.
Arguments failure_stack_trace {ProtoMsg} f.
Arguments failure_cause {ProtoMsg} f.
Arguments failure_application_failure_info {ProtoMsg} f.
Arguments event_id {ProtoMsg} h.
Arguments event_type {ProtoMsg} h.
Arguments activity_task_scheduled_event_attributes {ProtoMsg} h.
Arguments activity_task_failed_event_attributes {ProtoMsg} h.
Arguments workflow_execution_failed_event_attributes {ProtoMsg} h.
Arguments ef_message {Dict} e.
Arguments ef_stack_trace {Dict} e.
Arguments ef_cause {Dict} e.
Arguments ef_application_failure_info {Dict} e.
Arguments from_scheduled_activity {Json ProtoMsg} orjson_loads UDFActionInput_init event.
Arguments from_history_event {ProtoMsg Dict} MessageToDict event.
Arguments with_payloads {ProtoMsg} event ps.

End Correlator.

(** ** Concrete actions, worlds and events used to exercise the model *)

Module Examples.

Import Registry.

(** [slugify] on a namespace that is already a slug. *)
Definition slugify_id (s : string) : string := s.

(** A sandbox that always opens. *)
Definition sandbox_ok (role : Role) (secrets : option (list string))
  : option PyError := None.

(** [def add(a: int, b: int) -> int: return a + b] *)
Definition add : PyFunction :=
  {| fn_name := "add";
     fn_callable := true;
     fn_is_coroutine := false;
     fn_params := [ {| p_name := "a"; p_annotation := TInt;
                       p_default := None; p_docs := [] |};
                    {| p_name := "b"; p_annotation := TInt;
                       p_default := None; p_docs := [] |} ];
     fn_return_annotation := Some TInt;
     fn_body := fun kw =>
                  match kw !! "a", kw !! "b" with
                  | Some (VInt a), Some (VInt b) => Ret (VInt (a + b))
                  | _, _ => Raise (TypeError "unsupported operand")
                  end |}.

Definition core_args : RegisterArgs :=
  {| r_description := "Add two integers";
     r_secrets := None;
     r_namespace := "core";
     r_version := None;
     r_register_kwargs := ∅ |}.

(** The registry after [@registry.register(description=...)] on [add]. *)
Definition reg_add : Registry := (register slugify_id core_args add ∅).2.

Definition w_add : WrappedFn :=
  {| w_key := "core.add"; w_fn := add; w_secrets := None |}.

Definition kw_a_b : gmap string PyVal := <["a" := VInt 1]> (<["b" := VInt 2]> ∅).

Import Action.

(** Steps, inputs and worlds for the controller. Handles and pointers
    are strings here. *)
Definition step (key r : string) (delay : Z) : ActionStatement :=
  {| id := None; ref := r; action := key; args := ∅;
     title := r; Dsl.description := ""; retry_policy := VNone;
     start_delay := delay |}.

Definition caller : Role := {| role_type := "user"; role_user_id := Some "u-1" |}.

Definition run_ctx : RunContext :=
  {| wf_id := "wf-1"; wf_exec_id := "wf-1:exec-1"; environment := "default" |}.

Definition input_of (t : ActionStatement) : RunActionInput :=
  {| task := t; run_context := run_ctx |}.

(** A client whose two backends end in the same way. *)
Definition world_raising (n : Z) (e : PyExc) : World string string :=
  {| attempt := n;
     sleep := fun _ => None;
     run_action_memory_backend := fun _ _ => Raise e;
     run_action_store_backend := fun _ _ => Raise e;
     to_pointer := fun h => Ret ("store://" +:+ h) |}.

Definition world_ok (cancelled : option PyExc) : World string string :=
  {| attempt := 1;
     sleep := fun _ => cancelled;
     run_action_memory_backend := fun _ _ => Ret (VStr "a large payload");
     run_action_store_backend := fun _ _ => Ret "results/step1";
     to_pointer := fun h => Ret ("store://" +:+ h) |}.

Definition boom (intent : RetryIntent) : PyExc :=
  RegistryActionError "RegistryActionError" "boom" VNone intent.

Definition disk_full : PyExc := OtherException "RuntimeError" "disk full".

Definition cancelled_error : PyExc := BaseExceptionOnly "CancelledError" "".

End Examples.

Module CorrelatorExamples.

Import Correlator.

(** Stand-ins for the decoders: JSON values are strings, one recorded
    payload is known and decodes to a run of the Slack action. *)
Definition loads (data : string) : Outcome string :=
  if String.eqb data "" then Raise (JSONDecodeError "unexpected end of data")
  else Ret data.

Definition slack_input : RunActionInput :=
  Examples.input_of (Examples.step "integrations.slack.post_message" "notify" 0).

Definition init (js : string) : Outcome RunActionInput :=
  if String.eqb js "slack-run" then Ret slack_input
  else Raise (ValidationError "task: field required").

Definition to_dict (m : string) : string := m.

Definition no_failure : Failure string :=
  {| failure_message := ""; failure_stack_trace := "";
     failure_cause := ""; failure_application_failure_info := "" |}.

Definition event_of (n : Z) (kind : EventType) (ps : list Payload)
  : HistoryEvent string :=
  {| event_id := n;
     event_type := kind;
     activity_task_scheduled_event_attributes := {| input := {| payloads := ps |} |};
     activity_task_failed_event_attributes := no_failure;
     workflow_execution_failed_event_attributes := no_failure |}.

Definition slack_payload : Payload := {| data := "slack-run" |}.
Definition stray_payload : Payload := {| data := "not the input" |}.

End CorrelatorExamples.

(** ** Further predicates and sample data for the properties below *)

Module Supplement.

Import Registry.

(** The keyword mapping gives parameter [p] a value of its annotated type,
    or leaves it out when it has a default. *)
Definition param_satisfied (kwargs : gmap string PyVal) (p : Param) : Prop :=
  match kwargs !! p_name p with
  | Some v => strict_isinstance v (p_annotation p) = true
  | None => is_Some (p_default p)
  end.


(** The arguments [bind_arguments] binds when it succeeds: for each
    parameter the value passed, or else its default. *)
Definition bound_arguments (kwargs : gmap string PyVal) (params : list Param)
  : gmap string PyVal :=
  foldr (fun p m =>
           match kwargs !! p_name p, p_default p with
           | Some v, _ => <[p_name p := v]> m
           | None, Some d => <[p_name p := d]> m
           | None, None => m
           end) ∅ params.

(** [def greet(name: Annotated[str, Doc("old"), Doc("Who to greet")],
               times: int = 1) -> str] *)
Definition greet : PyFunction :=
  {| fn_name := "greet";
     fn_callable := true;
     fn_is_coroutine := true;
     fn_params := [ {| p_name := "name"; p_annotation := TStr;
                       p_default := None; p_docs := ["old"; "Who to greet"] |};
                    {| p_name := "times"; p_annotation := TInt;
                       p_default := Some (VInt 1); p_docs := [] |} ];
     fn_return_annotation := None;
     fn_body := fun kw =>
                  match kw !! "name", kw !! "times" with
                  | Some (VStr n), Some (VInt 1) => Ret (VStr ("hello " +:+ n))
                  | Some (VStr n), Some (VInt _) => Ret (VStr ("hello again " +:+ n))
                  | _, _ => Raise (OtherError "RuntimeError" "bad arguments")
                  end |}.

Definition chat_args : RegisterArgs :=
  {| r_description := "Greet somebody";
     r_secrets := Some ["chat_token"];
     r_namespace := "integrations.chat";
     r_version := Some "1";
     r_register_kwargs := <["display_group" := VStr "Chat"]> ∅ |}.

Definition reg_greet : Registry :=
  (register Examples.slugify_id chat_args greet Examples.reg_add).2.

Definition w_greet : WrappedFn :=
  {| w_key := "integrations.chat.greet"; w_fn := greet;
     w_secrets := Some ["chat_token"] |}.

Definition kw_greet : gmap string PyVal :=
  <["name" := VStr "ada"]> (<["__role" := VRole Examples.caller]> ∅).


(** A module object: it has a [__name__] and cannot be called. *)
Definition not_a_function : PyFunction :=
  {| fn_name := "os"; fn_callable := false; fn_is_coroutine := false;
     fn_params := []; fn_return_annotation := None;
     fn_body := fun _ => Raise (TypeError "object is not callable") |}.

(** A structured failure coming out of a nested call, marked fatal. *)
Definition upstream_timeout : Action.PyExc :=
  Action.NestedApplicationError "ApplicationError" "TimeoutError: upstream timed out"
    {| Action.message := "upstream timed out";
       Action.details := [];
       Action.type := Some "TimeoutError";
       Action.non_retryable := true |}.

(** A client whose store backend answers but whose handle cannot be turned
    into a pointer. *)
Definition world_bad_pointer : Action.World string string :=
  {| Action.attempt := 3;
     Action.sleep := fun _ => None;
     Action.run_action_memory_backend := fun _ _ => Action.Ret (VStr "a large payload");
     Action.run_action_store_backend := fun _ _ => Action.Ret "results/step1";
     Action.to_pointer := fun _ => Action.Raise (Action.OtherException "KeyError" "results/step1") |}.

(** An activity-failed event whose failure has a cause. *)
Definition timeout_failure : Correlator.Failure string :=
  {| Correlator.failure_message := "upstream timed out";
     Correlator.failure_stack_trace := "Traceback (most recent call last)";
     Correlator.failure_cause := "cause: connection reset";
     Correlator.failure_application_failure_info := "type: TimeoutError" |}.

Definition failed_event : Correlator.HistoryEvent string :=
  {| Correlator.event_id := 9;
     Correlator.event_type := Correlator.EVENT_TYPE_ACTIVITY_TASK_FAILED;
     Correlator.activity_task_scheduled_event_attributes :=
       {| Correlator.input := {| Correlator.payloads := [] |} |};
     Correlator.activity_task_failed_event_attributes := timeout_failure;
     Correlator.workflow_execution_failed_event_attributes :=
       CorrelatorExamples.no_failure |}.

End Supplement.

(** * Properties of the registry *)

Module RegistryFacts.

Import Registry.

(** What [Supplement.bound_arguments] holds under a name. *)
Lemma bound_lookup_other (kw : gmap string PyVal) (ps : list Param) (k : string) :
  k ∉ (p_name <$> ps) ->
  Supplement.bound_arguments kw ps !! k = None.
Proof.
  unfold Supplement.bound_arguments.
  induction ps as [| q ps IH]; cbn [foldr fmap list_fmap]; [done |].
  intros [Hq Hps]%not_elem_of_cons.
  destruct (kw !! p_name q), (p_default q);
    rewrite ?lookup_insert_ne by done; by apply IH.
Qed.


Section Facts.

Variable slugify : string -> string.
Variable sandbox_enter : Role -> option (list string) -> option PyError.

Lemma contains_true (self : Registry) (k : string) :
  contains self k = true <-> is_Some (self !! k).
Proof. unfold contains. apply bool_decide_eq_true. Qed.

Lemma contains_false (self : Registry) (k : string) :
  contains self k = false <-> self !! k = None.
Proof.
  unfold contains. rewrite bool_decide_eq_false, eq_None_not_Some. tauto.
Qed.

(** A failed registration leaves the mapping as it was. *)
Lemma register_error_unchanged a f (self self' : Registry) e :
  register slugify a f self = (Raise e, self') -> self' = self.
Proof.
  unfold register. destruct (contains self _); [congruence |].
  destruct (negb (fn_callable f)); [congruence |].
  destruct (_generate_model_from_function _ _ _) as [[? ?] ?]. discriminate.
Qed.

(** What a successful registration stores, and where. *)
Lemma register_ok_inv a f (self self' : Registry) w :
  register slugify a f self = (Ret w, self') ->
  self !! register_key a f = None
  /\ fn_callable f = true
  /\ w = {| w_key := register_key a f; w_fn := f; w_secrets := r_secrets a |}
  /\ exists udf, self' = <[register_key a f := udf]> self
                 /\ fn udf = w
                 /\ namespace udf = r_namespace a
                 /\ args_cls udf
                    = (_generate_model_from_function slugify f (r_namespace a)).1.1.
Proof.
  unfold register.
  destruct (contains self _) eqn:Hc; [discriminate |].
  destruct (fn_callable f) eqn:Hf; cbn [negb]; [| discriminate].
  destruct (_generate_model_from_function _ _ _) as [[m rt] ra] eqn:Hg.
  intros [= <- <-]. apply contains_false in Hc.
  repeat split; try done. eexists; repeat split; done.
Qed.

Lemma register_registered a f (self self' : Registry) w :
  register slugify a f self = (Ret w, self') -> registered slugify self' w.
Proof.
  intros H. apply register_ok_inv in H as (Hnone & _ & Hw & udf & -> & Hfn & Hns & Hcls).
  exists udf. subst w. simpl. rewrite lookup_insert_eq.
  split; [done |]. split; [done |]. simpl in Hcls. by rewrite Hns.
Qed.

(** Registered actions stay registered, whatever is registered next. *)
Lemma registered_preserved a f (self self' : Registry) r w :
  registered slugify self w ->
  register slugify a f self = (r, self') -> registered slugify self' w.
Proof.
  intros (udf & Hl & Hfn & Hcls) H. destruct r as [w' | e].
  - apply register_ok_inv in H as (Hnone & _ & _ & udf' & -> & _).
    exists udf. rewrite lookup_insert_ne; [done |]. congruence.
  - apply register_error_unchanged in H as ->. by exists udf.
Qed.

(** The fields of a derived class are the parameters of the function,
    one for one, and extra keys are ignored. *)
Lemma generated_fields f ns :
  model_fields (_generate_model_from_function slugify f ns).1.1
  = (fun p => {| f_name := p_name p; f_type := p_annotation p;
                 f_default := p_default p |}) <$> fn_params f.
Proof. reflexivity. Qed.

Lemma generated_extra f ns :
  model_extra (_generate_model_from_function slugify f ns).1.1 = ExtraIgnore.
Proof. reflexivity. Qed.




(** What [_validate_args] computes for a registered action called with
    keywords only: the field errors of the derived class, nothing else. *)
Lemma validate_args_registered (self : Registry) w (kwargs : gmap string PyVal) :
  registered slugify self w ->
  _validate_args self (w_key w) [] kwargs
  = match flat_map (validate_field kwargs)
                   ((fun p => {| f_name := p_name p; f_type := p_annotation p;
                                 f_default := p_default p |}) <$> fn_params (w_fn w)) with
    | [] => Ret tt
    | errors => Raise (ValidationError errors)
    end.
Proof.
  intros (udf & Hl & _ & Hcls). unfold _validate_args, get. cbn [length Nat.ltb Nat.leb].
  rewrite Hl. unfold model_validate, validate_extras.
  rewrite Hcls, generated_extra, generated_fields. by rewrite app_nil_r.
Qed.


(** C4. Once a key is registered, a second registration under the same
    key raises the "already registered" [ValueError] (DuplicateKey) and
    returns the registry it was given: the whole mapping, and with it
    the entry of the first registration, is as the first call left it. *)
Theorem register_twice_duplicate_key
        (a1 a2 : RegisterArgs) (f1 f2 : PyFunction)
        (self self1 : Registry) (w : WrappedFn) :
  register slugify a1 f1 self = (Ret w, self1) ->
  register_key a2 f2 = register_key a1 f1 ->
  register slugify a2 f2 self1 = (Raise (DuplicateKey (register_key a1 f1)), self1)
  /\ exists udf, self1 !! register_key a1 f1 = Some udf
                 /\ fn udf = w /\ w_fn w = f1
                 /\ (register slugify a2 f2 self1).2 !! register_key a1 f1 = Some udf.
Proof.
  intros H1 Hk.
  apply register_ok_inv in H1 as (_ & _ & Hw & udf & -> & Hfn & _ & _).
  assert (Hdup : register slugify a2 f2 (<[register_key a1 f1 := udf]> self)
                 = (Raise (DuplicateKey (register_key a1 f1)),
                    <[register_key a1 f1 := udf]> self)).
  { unfold register. rewrite Hk.
    assert (contains (<[register_key a1 f1 := udf]> self) (register_key a1 f1) = true)
      as -> by (apply contains_true; rewrite lookup_insert_eq; by eexists).
    reflexivity. }
  split; [exact Hdup |].
  exists udf. rewrite Hdup. cbn [snd]. rewrite lookup_insert_eq.
  repeat split; try done. by subst w.
Qed.

(** C6. A call of a wrapped callable with at least one positional
    argument raises the "keyword arguments" [ValueError]
    (KeywordArgsRequired), whatever the keywords are, and leaves an empty
    trace: the implementation did not run. *)
Theorem positional_args_rejected
        (self : Registry) (w : WrappedFn)
        (args : list PyVal) (kwargs : gmap string PyVal) :
  args <> [] ->
  wrapped_fn sandbox_enter self w args kwargs = (Raise KeywordArgsRequired, [])
  /\ invoked (wrapped_fn sandbox_enter self w args kwargs).2 = false.
Proof.
  intros Hargs. destruct args as [| v args]; [done |].
  unfold wrapped_fn, _validate_args. cbn. done.
Qed.

End Facts.

Import Examples.

Lemma reg_add_registered : registered slugify_id reg_add w_add.
Proof.
  apply (register_registered slugify_id core_args add ∅). vm_compute. reflexivity.
Defined.



(** Witness of C4: [add] registered twice under [core]. *)
Lemma register_twice_duplicate_key_witness :
  register slugify_id core_args add reg_add = (Raise (DuplicateKey "core.add"), reg_add)
  /\ exists udf, reg_add !! "core.add" = Some udf
                 /\ fn udf = w_add /\ w_fn w_add = add
                 /\ (register slugify_id core_args add reg_add).2 !! "core.add" = Some udf.
Proof.
  apply (register_twice_duplicate_key slugify_id core_args core_args add add ∅ reg_add w_add).
  - vm_compute. reflexivity.
  - reflexivity.
Defined.

(** Witness of C6: [add] called as [add(1, a=1, b=2)]. *)
Lemma positional_args_rejected_witness :
  wrapped_fn sandbox_ok reg_add w_add [VInt 1] kw_a_b = (Raise KeywordArgsRequired, [])
  /\ invoked (wrapped_fn sandbox_ok reg_add w_add [VInt 1] kw_a_b).2 = false.
Proof.
  apply (positional_args_rejected sandbox_ok reg_add w_add [VInt 1] kw_a_b).
  discriminate.
Defined.

End RegistryFacts.

(** * Properties of the invocation controller *)

Module ActionFacts.

Import Action.

Section Facts.

Variables Handle StoreObjectPtr : Type.
Variable locator : ActionStatement -> string -> string.

Implicit Type w : World Handle StoreObjectPtr.

(** Case analysis on the delay phase when it is known to end normally. *)
Ltac reach_dispatch w input :=
  destruct (start_delay_phase w (task input)) as [[? |] ?];
  [discriminate |]; cbn [fst].

(** The delay phase, case by case. *)
Lemma start_delay_phase_pos w task :
  (0 < start_delay task)%Z ->
  start_delay_phase w task = (sleep w (start_delay task), [Sleep (start_delay task)]).
Proof.
  intros H. unfold start_delay_phase.
  by destruct (Z.ltb_spec 0 (start_delay task)); [| lia].
Qed.

Lemma start_delay_phase_nonpos w task :
  (start_delay task <= 0)%Z -> start_delay_phase w task = (None, []).
Proof.
  intros H. unfold start_delay_phase.
  by destruct (Z.ltb_spec 0 (start_delay task)); [lia |].
Qed.

(** The trace of each activity is the trace of the delay phase, followed
    by the dispatch if the delay phase ended normally. *)
Lemma memory_trace w input role :
  (run_action_activity locator w input role).2
  = ((start_delay_phase w (task input)).2
     ++ match (start_delay_phase w (task input)).1 with
        | None => [DispatchMemory role input]
        | Some _ => []
        end)%list.
Proof.
  unfold run_action_activity.
  destruct (start_delay_phase w (task input)) as [[e |] tr]; cbn; [| done].
  by rewrite app_nil_r.
Qed.

Lemma store_trace w input role :
  (run_action_with_store_activity locator w input role).2
  = ((start_delay_phase w (task input)).2
     ++ match (start_delay_phase w (task input)).1 with
        | None => [DispatchStore role input]
        | Some _ => []
        end)%list.
Proof.
  unfold run_action_with_store_activity.
  destruct (start_delay_phase w (task input)) as [[e |] tr]; cbn; [| done].
  by rewrite app_nil_r.
Qed.

Lemma sleeps_before_dispatch_cons d (rest : list Event) :
  sleeps_before_dispatch d (Sleep d :: rest).
Proof.
  intros [| i] ev Hi Hd.
  - cbn in Hi. injection Hi as <-. discriminate.
  - exists 0%nat. split; [lia | done].
Qed.

(** The store-mode clause never ends in a value. *)
Lemma classify_store_not_returned task n e (r : StoreObjectPtr) :
  classify_store locator task n e <> Returned r.
Proof. unfold classify_store. by destruct (is_Exception e). Qed.

(** C2 (amended). When the attempt reaches the dispatch and the client
    raises an exception that derives from [Exception] and is neither a
    [RegistryActionError] nor an [ApplicationError]:
    - the memory-backend run fails with an [ApplicationError] marked
      non-retryable, typed with the class name [kind], whose message is
      the contextualized ["<kind> occurred:\n<text>"];
    - the store-backend run fails with an [ApplicationError] that is
      left retryable and untyped, whose message is the contextualized
      exception text alone. *)
Theorem unknown_error_classification w input role kind text :
  (start_delay_phase w (task input)).1 = None ->
  (run_action_memory_backend w role input = Raise (OtherException kind text) ->
   (run_action_activity locator w input role).1
   = Failed {| message :=
                 _contextualize_message locator (task input)
                   (kind +:+ " occurred:" +:+ nl +:+ text) (attempt w) "run_action";
               details := [{| info_ref := ref (task input);
                              info_message := kind +:+ " occurred:" +:+ nl +:+ text;
                              info_type := kind;
                              info_attempt := attempt w |}];
               type := Some kind;
               non_retryable := true |})
  /\ (run_action_store_backend w role input = Raise (OtherException kind text) ->
      (run_action_with_store_activity locator w input role).1
      = Failed {| message :=
                    _contextualize_message locator (task input) text
                      (attempt w) "run_action";
                  details := [{| info_ref := ref (task input);
                                 info_message := text;
                                 info_type := kind;
                                 info_attempt := attempt w |}];
                  type := None;
                  non_retryable := false |}).
Proof.
  intros Hd. split; intros Hc.
  - unfold run_action_activity.
    reach_dispatch w input. by rewrite Hc.
  - unfold run_action_with_store_activity.
    reach_dispatch w input. by rewrite Hc.
Qed.

(** C5. A store-mode run that returns normally returns what
    [to_pointer] gave for the handle the client's store backend
    returned; by its type the value is a store pointer, not a payload. *)
Theorem store_run_returns_pointer w input role (r : StoreObjectPtr) :
  (run_action_with_store_activity locator w input role).1 = Returned r ->
  exists handle, run_action_store_backend w role input = Ret handle
                 /\ to_pointer w handle = Ret r.
Proof.
  unfold run_action_with_store_activity.
  destruct (start_delay_phase w (task input)) as [[e |] tr]; [discriminate |].
  cbn [fst].
  destruct (run_action_store_backend w role input) as [handle | e].
  - destruct (to_pointer w handle) as [ptr | e] eqn:Hp.
    + intros [= ->]. by exists handle.
    + intros H. by apply classify_store_not_returned in H.
  - intros H. by apply classify_store_not_returned in H.
Qed.

(** C7. With a positive [start_delay] both activities first suspend for
    exactly that duration: every dispatch of the trace comes after the
    [Sleep]; if the suspension is cut short by an exception nothing is
    dispatched, and if it elapses the dispatch follows. With a
    [start_delay] of zero the trace is the dispatch alone: no
    suspension. *)
Theorem start_delay_before_dispatch w input role :
  ((0 < start_delay (task input))%Z ->
   sleeps_before_dispatch (start_delay (task input))
     (run_action_activity locator w input role).2
   /\ sleeps_before_dispatch (start_delay (task input))
        (run_action_with_store_activity locator w input role).2
   /\ (sleep w (start_delay (task input)) = None ->
       (run_action_activity locator w input role).2
       = [Sleep (start_delay (task input)); DispatchMemory role input]
       /\ (run_action_with_store_activity locator w input role).2
          = [Sleep (start_delay (task input)); DispatchStore role input])
   /\ (sleep w (start_delay (task input)) <> None ->
       (run_action_activity locator w input role).2
       = [Sleep (start_delay (task input))]
       /\ (run_action_with_store_activity locator w input role).2
          = [Sleep (start_delay (task input))]))
  /\ (start_delay (task input) = 0%Z ->
      (run_action_activity locator w input role).2 = [DispatchMemory role input]
      /\ (run_action_with_store_activity locator w input role).2
         = [DispatchStore role input]
      /\ never_sleeps (run_action_activity locator w input role).2
      /\ never_sleeps (run_action_with_store_activity locator w input role).2).
Proof.
  rewrite memory_trace, store_trace. split.
  - intros Hpos. rewrite (start_delay_phase_pos w _ Hpos). cbn [fst snd app].
    destruct (sleep w (start_delay (task input))) as [e |] eqn:Hs; cbn [app].
    + split; [apply sleeps_before_dispatch_cons |].
      split; [apply sleeps_before_dispatch_cons |].
      split; [discriminate | done].
    + split; [apply sleeps_before_dispatch_cons |].
      split; [apply sleeps_before_dispatch_cons |].
      split; [done | congruence].
  - intros Hz. rewrite (start_delay_phase_nonpos w) by lia. cbn [fst snd app].
    repeat split; by repeat constructor.
Qed.

End Facts.

(** C3 (amended). When the attempt reaches the dispatch and the client
    raises a domain action error of class [kind] whose exception text
    [str(e)] is [text], the run fails with an [ApplicationError] that
    carries [DSLTaskErrorInfo{ref = task.ref, message = text, type = kind,
    attempt}] and whose message is the locator
    [[<action>@<ref>] (Attempt <n>)], a blank line, and [text]. The failure
    is left retryable whatever intent the action attached to its error, and
    nothing of it depends on the error's [detail] attribute, which the
    source only logs. The memory-backend run tags the failure with
    [kind]; the store-backend run leaves it untagged. *)
Theorem domain_error_contextualized
        (Handle StoreObjectPtr : Type) (w : World Handle StoreObjectPtr)
        (input : RunActionInput) (role : Role)
        (kind text : string) (detail : PyVal) (intent : RetryIntent) :
  (start_delay_phase w (task input)).1 = None ->
  (run_action_memory_backend w role input
   = Raise (RegistryActionError kind text detail intent) ->
   (run_action_activity context_locator w input role).1
   = Failed {| message :=
                 "[" +:+ (action (task input) +:+ "@" +:+ ref (task input))
                     +:+ "] (Attempt " +:+ pretty (attempt w) +:+ ")"
                     +:+ nl +:+ nl +:+ text;
               details := [{| info_ref := ref (task input);
                              info_message := text;
                              info_type := kind;
                              info_attempt := attempt w |}];
               type := Some kind;
               non_retryable := false |})
  /\ (run_action_store_backend w role input
      = Raise (RegistryActionError kind text detail intent) ->
      (run_action_with_store_activity context_locator w input role).1
      = Failed {| message :=
                    "[" +:+ (action (task input) +:+ "@" +:+ ref (task input))
                        +:+ "] (Attempt " +:+ pretty (attempt w) +:+ ")"
                        +:+ nl +:+ nl +:+ text;
                  details := [{| info_ref := ref (task input);
                                 info_message := text;
                                 info_type := kind;
                                 info_attempt := attempt w |}];
                  type := None;
                  non_retryable := false |}).
Proof.
  intros Hd. split; intros Hc.
  - unfold run_action_activity.
    destruct (start_delay_phase w (task input)) as [[e |] tr]; [discriminate |].
    cbn [fst]. rewrite Hc. reflexivity.
  - unfold run_action_with_store_activity.
    destruct (start_delay_phase w (task input)) as [[e |] tr]; [discriminate |].
    cbn [fst]. rewrite Hc. reflexivity.
Qed.

Import Examples.

(** Witness of C2: a [RuntimeError] from the client, attempt 2. *)
Lemma unknown_error_classification_witness :
  (run_action_activity context_locator (world_raising 2 disk_full)
     (input_of (step "core.big" "step2" 0)) caller).1
  = Failed {| message := "[core.big@step2] (Attempt 2)" +:+ nl +:+ nl
                           +:+ "RuntimeError occurred:" +:+ nl +:+ "disk full";
              details := [{| info_ref := "step2";
                             info_message := "RuntimeError occurred:" +:+ nl +:+ "disk full";
                             info_type := "RuntimeError";
                             info_attempt := 2 |}];
              type := Some "RuntimeError";
              non_retryable := true |}.
Proof.
  apply (unknown_error_classification string string context_locator
           (world_raising 2 disk_full) (input_of (step "core.big" "step2" 0))
           caller "RuntimeError" "disk full"); reflexivity.
Defined.

(** Counterexample to C2 as stated: the same [RuntimeError] in store mode
    surfaces as a retryable failure whose message has no
    ["<kind> occurred:"] part. *)
Lemma store_unknown_error_retryable :
  (run_action_with_store_activity context_locator (world_raising 2 disk_full)
     (input_of (step "core.big" "step2" 0)) caller).1
  = Failed {| message := "[core.big@step2] (Attempt 2)" +:+ nl +:+ nl +:+ "disk full";
              details := [{| info_ref := "step2";
                             info_message := "disk full";
                             info_type := "RuntimeError";
                             info_attempt := 2 |}];
              type := None;
              non_retryable := false |}.
Proof. vm_compute. reflexivity. Qed.

(** Witness of C3: [core.fail] at ref [step1], attempt 1, raising an error
    whose text is [boom] and whose [detail] is something else. *)
Lemma domain_error_contextualized_witness :
  (run_action_activity context_locator
     (world_raising 1 (RegistryActionError "RegistryActionError" "boom"
                         (VStr "upstream answered 500") Retryable))
     (input_of (step "core.fail" "step1" 0)) caller).1
  = Failed {| message := "[core.fail@step1] (Attempt 1)" +:+ nl +:+ nl +:+ "boom";
              details := [{| info_ref := "step1";
                             info_message := "boom";
                             info_type := "RegistryActionError";
                             info_attempt := 1 |}];
              type := Some "RegistryActionError";
              non_retryable := false |}.
Proof.
  apply (domain_error_contextualized string string
           (world_raising 1 (RegistryActionError "RegistryActionError" "boom"
                               (VStr "upstream answered 500") Retryable))
           (input_of (step "core.fail" "step1" 0))
           caller "RegistryActionError" "boom" (VStr "upstream answered 500") Retryable);
    reflexivity.
Defined.

(** Counterexample to C3 as stated: [core.fail] raises its error with a
    non-retryable intent; the failure that surfaces is retryable. *)
Lemma domain_error_intent_not_preserved :
  exists f,
    (run_action_activity context_locator (world_raising 1 (boom NonRetryable))
       (input_of (step "core.fail" "step1" 0)) caller).1 = Failed f
    /\ non_retryable f = false
    /\ ~ preserves_intent NonRetryable f.
Proof.
  eexists. split; [vm_compute; reflexivity |]. split; [reflexivity |].
  unfold preserves_intent. cbn. discriminate.
Qed.

(** Witness of C5: the store backend answers with the handle
    [results/step1]. *)
Lemma store_run_returns_pointer_witness :
  (run_action_with_store_activity context_locator (world_ok None)
     (input_of (step "core.big" "step1" 0)) caller).1
  = Returned "store://results/step1"
  /\ exists handle,
      run_action_store_backend (world_ok None) caller
        (input_of (step "core.big" "step1" 0)) = Ret handle
      /\ to_pointer (world_ok None) handle = Ret "store://results/step1".
Proof.
  split; [reflexivity |].
  apply (store_run_returns_pointer string string context_locator (world_ok None)
           (input_of (step "core.big" "step1" 0)) caller).
  reflexivity.
Defined.

(** Witness of C7: a delay of 5 that elapses, and one that is cancelled. *)
Lemma start_delay_before_dispatch_witness :
  (run_action_activity context_locator (world_ok None)
     (input_of (step "core.add" "step1" 5)) caller).2
  = [Sleep 5; DispatchMemory caller (input_of (step "core.add" "step1" 5))]
  /\ (run_action_with_store_activity context_locator (world_ok (Some cancelled_error))
        (input_of (step "core.add" "step1" 5)) caller).2
     = [Sleep 5].
Proof.
  split.
  - apply (start_delay_before_dispatch string string context_locator (world_ok None)
             (input_of (step "core.add" "step1" 5)) caller);
      [cbn; lia | reflexivity].
  - apply (start_delay_before_dispatch string string context_locator
             (world_ok (Some cancelled_error))
             (input_of (step "core.add" "step1" 5)) caller);
      [cbn; lia | discriminate].
Defined.

End ActionFacts.

(** * Properties of the history correlator *)

Module CorrelatorFacts.

Import Correlator.

(** ** Splitting an action key on its dots *)

Lemma split_go_dot_cons c s :
  split_go "." 0 (String c s)
  = if Ascii.eqb "." c then "" :: split_go "." 0 s
    else match split_go "." 0 s with
         | piece :: pieces => String c piece :: pieces
         | [] => [String c ""]
         end.
Proof.
  cbn [split_go String.prefix String.length Nat.sub].
  destruct (ascii_dec "." c) as [<- | Hne].
  - by destruct s.
  - destruct (Ascii.eqb_spec "." c); [done | reflexivity].
Qed.

Lemma split_go_no_dot name :
  occurs "." name = false -> split_go "." 0 name = [name].
Proof.
  induction name as [| c name IH]; [done |].
  cbn [occurs]. intros [Hc Hn]%orb_false_iff.
  rewrite split_go_dot_cons, Hc, IH; done.
Qed.

Lemma unpack_last_cons part rest stem leaf :
  unpack_last rest = Ret (stem, leaf) ->
  unpack_last (part :: rest) = Ret (part :: stem, leaf).
Proof.
  intros H. destruct rest as [| r rest]; [discriminate |].
  cbn [unpack_last] in *. by rewrite H.
Qed.

Lemma unpack_last_nonempty_stem parts h t leaf :
  unpack_last parts = Ret (h :: t, leaf) ->
  exists rest, parts = h :: rest /\ unpack_last rest = Ret (t, leaf).
Proof.
  destruct parts as [| p [| q rest]]; [discriminate | discriminate |].
  change (unpack_last (p :: q :: rest))
    with (match unpack_last (q :: rest) with
          | Ret (stem, leaf) => Ret (p :: stem, leaf)
          | Raise e => Raise e
          end).
  destruct (unpack_last (q :: rest)) as [[stem lf] |] eqn:Hu; [| discriminate].
  intros [= -> -> ->]. by exists (q :: rest).
Qed.
(** The pieces of [ns.name], with [name] free of dots: the last one is
    [name] and the others, joined by dots, give back [ns]. *)
Lemma split_dot_stem_leaf ns name :
  occurs "." name = false ->
  exists h t,
    unpack_last (split_go "." 0 (ns +:+ "." +:+ name)) = Ret (h :: t, name)
    /\ String.concat "." (h :: t) = ns.
Proof.
  intros Hname. induction ns as [| c ns (h & t & Hu & Hc)].
  - exists "", []. change ("" +:+ "." +:+ name) with (String "." name).
    rewrite split_go_dot_cons.
    cbn [Ascii.eqb Bool.eqb]. by rewrite (split_go_no_dot _ Hname).
  - change (String c ns +:+ "." +:+ name) with (String c (ns +:+ "." +:+ name)).
    rewrite split_go_dot_cons.
    destruct (unpack_last_nonempty_stem _ _ _ _ Hu) as (rest & Hs & Hrest).
    destruct (Ascii.eqb_spec "." c) as [<- | Hne].
    + exists "", (h :: t). split.
      * by apply unpack_last_cons.
      * cbn [String.concat]. cbn [String.concat] in Hc. by rewrite Hc.
    + rewrite Hs. exists (String c h), t. split.
      * by apply unpack_last_cons.
      * destruct t as [| t1 t2]; cbn [String.concat] in *; by rewrite <- Hc.
Qed.

Lemma destructure_dot ns name :
  occurs "." name = false ->
  destructure_slugified_namespace (ns +:+ "." +:+ name) "." = Ret (ns, name).
Proof.
  intros Hname. unfold destructure_slugified_namespace, split.
  destruct (split_dot_stem_leaf ns name Hname) as (h & t & -> & ->). done.
Qed.

(** A key without a dot has an empty namespace. *)
Lemma destructure_no_dot name :
  occurs "." name = false ->
  destructure_slugified_namespace name "." = Ret ("", name).
Proof.
  intros Hname. unfold destructure_slugified_namespace, split.
  by rewrite (split_go_no_dot _ Hname).
Qed.

(** The part of a string after its last dot. *)
Lemma last_dot_decomposition (s : string) :
  occurs "." s = true ->
  exists ns name, s = ns +:+ "." +:+ name /\ occurs "." name = false.
Proof.
  induction s as [| c s IH]; [discriminate |]. cbn [occurs].
  destruct (occurs "." s) eqn:Hs.
  - intros _. destruct IH as (ns & name & -> & Hname); [done |].
    by exists (String c ns), name.
  - rewrite orb_false_r. intros <-%Ascii.eqb_eq. by exists "", s.
Qed.

(** Split on dots, every key has an answer. *)
Lemma destructure_dot_total (key : string) :
  exists ns name, destructure_slugified_namespace key "." = Ret (ns, name).
Proof.
  destruct (occurs "." key) eqn:Hk.
  - destruct (last_dot_decomposition key Hk) as (ns & name & -> & Hname).
    exists ns, name. by apply destructure_dot.
  - exists "", key. by apply destructure_no_dot.
Qed.

Section Facts.

Variables Json ProtoMsg Dict : Type.
Variable orjson_loads : string -> Outcome Json.
Variable UDFActionInput_init : Json -> Outcome RunActionInput.
Variable MessageToDict : ProtoMsg -> Dict.

Implicit Type event : HistoryEvent ProtoMsg.

(** [from_scheduled_activity] reads the recorded payloads at index 0
    only. *)
Lemma from_scheduled_activity_first_payload event payload rest :
  payloads (input (activity_task_scheduled_event_attributes event)) = payload :: rest ->
  from_scheduled_activity orjson_loads UDFActionInput_init event
  = from_scheduled_activity orjson_loads UDFActionInput_init
      (with_payloads event [payload]).
Proof.
  intros Hp. unfold from_scheduled_activity, with_payloads. cbn. by rewrite Hp.
Qed.

(** C8. For an activity-scheduled event whose first recorded payload
    decodes to a run input with action key [ns.name], [name] being free
    of dots (so that the dot before it is the last one of the key),
    [from_scheduled_activity] returns the event group with namespace
    [ns], name [name] and the whole key as [udf_key], the other fields
    being copied from the event and the decoded task. *)
Theorem from_scheduled_activity_splits_key
        event payload rest js (action_input : RunActionInput) ns name :
  event_type event = EVENT_TYPE_ACTIVITY_TASK_SCHEDULED ->
  payloads (input (activity_task_scheduled_event_attributes event)) = payload :: rest ->
  orjson_loads (data payload) = Ret js ->
  UDFActionInput_init js = Ret action_input ->
  action (task action_input) = ns +:+ "." +:+ name ->
  occurs "." name = false ->
  from_scheduled_activity orjson_loads UDFActionInput_init event
  = Ret {| eg_event_id := event_id event;
           udf_namespace := ns;
           udf_name := name;
           udf_key := ns +:+ "." +:+ name;
           action_id := id (task action_input);
           action_ref := ref (task action_input);
           action_title := title (task action_input);
           action_description := Dsl.description (task action_input);
           action_input := action_input;
           action_result := None |}.
Proof.
  intros Hty Hp Hl Hi Ha Hname. unfold from_scheduled_activity.
  rewrite Hty, Hp, bool_decide_eq_true_2 by done. cbn [negb].
  change ((payload :: rest) !! 0%nat) with (Some payload).
  cbv beta iota. rewrite Hl, Hi, Ha. by rewrite (destructure_dot ns name Hname).
Qed.

(** C9. [from_scheduled_activity] raises its [ValueError] on every
    event that is not an activity-scheduled one, [from_history_event]
    raises its [ValueError] on every event that is neither an
    activity-failed nor a workflow-execution-failed one, and a
    workflow-execution-started event is rejected by both. *)
Theorem unsupported_event_kinds event :
  (event_type event <> EVENT_TYPE_ACTIVITY_TASK_SCHEDULED ->
   from_scheduled_activity orjson_loads UDFActionInput_init event
   = Raise (ValueError "Event is not an activity task scheduled event.")
   /\ UnsupportedEventKind
        (ValueError "Event is not an activity task scheduled event."))
  /\ (event_type event <> EVENT_TYPE_ACTIVITY_TASK_FAILED ->
      event_type event <> EVENT_TYPE_WORKFLOW_EXECUTION_FAILED ->
      from_history_event MessageToDict event
      = Raise (ValueError "Event type not supported for failure extraction.")
      /\ UnsupportedEventKind
           (ValueError "Event type not supported for failure extraction."))
  /\ (event_type event = EVENT_TYPE_WORKFLOW_EXECUTION_STARTED ->
      from_scheduled_activity orjson_loads UDFActionInput_init event
      = Raise (ValueError "Event is not an activity task scheduled event.")
      /\ from_history_event MessageToDict event
         = Raise (ValueError "Event type not supported for failure extraction.")).
Proof.
  unfold from_scheduled_activity, from_history_event, UnsupportedEventKind.
  split; [| split].
  - intros Hs. rewrite bool_decide_eq_false_2 by done. split; [done | by eexists].
  - intros Ha Hw. rewrite !bool_decide_eq_false_2 by done. split; [done | by eexists].
  - intros ->. done.
Qed.

(** C10. For an activity-scheduled event that records more than one
    payload, [from_scheduled_activity] decodes the payload at index 0, and
    that one alone, as the run input. If the JSON decoder or the
    construction of the input fails on that payload, the exception comes
    out unchanged; otherwise the group is built from the input decoded from
    it: its key, task fields and input are those of that input, and its
    namespace and name are what the key splits into. The answer is the one
    for the same event with only the first payload kept, and any other
    tail after index 0 gives the same answer. *)
Theorem extra_payloads_ignored event payload rest :
  event_type event = EVENT_TYPE_ACTIVITY_TASK_SCHEDULED ->
  payloads (input (activity_task_scheduled_event_attributes event)) = payload :: rest ->
  rest <> [] ->
  from_scheduled_activity orjson_loads UDFActionInput_init event
  = from_scheduled_activity orjson_loads UDFActionInput_init
      (with_payloads event [payload])
  /\ (forall rest',
         from_scheduled_activity orjson_loads UDFActionInput_init
           (with_payloads event (payload :: rest'))
         = from_scheduled_activity orjson_loads UDFActionInput_init event)
  /\ (forall e,
         orjson_loads (data payload) = Raise e ->
         from_scheduled_activity orjson_loads UDFActionInput_init event = Raise e)
  /\ (forall js e,
         orjson_loads (data payload) = Ret js ->
         UDFActionInput_init js = Raise e ->
         from_scheduled_activity orjson_loads UDFActionInput_init event = Raise e)
  /\ (forall js action_input,
         orjson_loads (data payload) = Ret js ->
         UDFActionInput_init js = Ret action_input ->
         exists ns name,
           destructure_slugified_namespace (action (task action_input)) "."
           = Ret (ns, name)
           /\ from_scheduled_activity orjson_loads UDFActionInput_init event
              = Ret {| eg_event_id := event_id event;
                       udf_namespace := ns;
                       udf_name := name;
                       udf_key := action (task action_input);
                       action_id := id (task action_input);
                       action_ref := ref (task action_input);
                       action_title := title (task action_input);
                       action_description := Dsl.description (task action_input);
                       action_input := action_input;
                       action_result := None |}).
Proof.
  intros Hty Hp _.
  split; [exact (from_scheduled_activity_first_payload event payload rest Hp) |].
  split.
  { intros rest'.
    rewrite (from_scheduled_activity_first_payload event payload rest Hp).
    by rewrite (from_scheduled_activity_first_payload
                  (with_payloads event (payload :: rest')) payload rest'). }
  unfold from_scheduled_activity.
  rewrite Hty, Hp, bool_decide_eq_true_2 by done. cbn [negb].
  change ((payload :: rest) !! 0%nat) with (Some payload). cbv beta iota.
  split; [by intros e -> |]. split; [by intros js e -> -> |].
  intros js action_input -> ->.
  destruct (destructure_dot_total (action (task action_input))) as (ns & name & Hd).
  exists ns, name. split; [exact Hd |]. by rewrite Hd.
Qed.

End Facts.

Import CorrelatorExamples.

(** Witness of C8: the Slack action of the specification. *)
Lemma from_scheduled_activity_splits_key_witness :
  from_scheduled_activity loads init
    (event_of 7 EVENT_TYPE_ACTIVITY_TASK_SCHEDULED [slack_payload])
  = Ret {| eg_event_id := 7;
           udf_namespace := "integrations.slack";
           udf_name := "post_message";
           udf_key := "integrations.slack.post_message";
           action_id := None;
           action_ref := "notify";
           action_title := "notify";
           action_description := "";
           action_input := slack_input;
           action_result := None |}.
Proof.
  apply (from_scheduled_activity_splits_key string string loads init
           (event_of 7 EVENT_TYPE_ACTIVITY_TASK_SCHEDULED [slack_payload])
           slack_payload [] "slack-run" slack_input
           "integrations.slack" "post_message"); reflexivity.
Defined.

(** Witness of C9: a workflow-execution-started event. *)
Lemma unsupported_event_kinds_witness :
  from_scheduled_activity loads init
    (event_of 1 EVENT_TYPE_WORKFLOW_EXECUTION_STARTED [])
  = Raise (ValueError "Event is not an activity task scheduled event.")
  /\ from_history_event to_dict
       (event_of 1 EVENT_TYPE_WORKFLOW_EXECUTION_STARTED [])
     = Raise (ValueError "Event type not supported for failure extraction.").
Proof.
  apply (unsupported_event_kinds string string string loads init to_dict
           (event_of 1 EVENT_TYPE_WORKFLOW_EXECUTION_STARTED [])).
  reflexivity.
Defined.

(** Witness of C10: a scheduled event with a second, stray payload that
    would not decode to a run input; the group is the one of the Slack run
    recorded first. *)
Lemma extra_payloads_ignored_witness :
  from_scheduled_activity loads init
    (event_of 7 EVENT_TYPE_ACTIVITY_TASK_SCHEDULED [slack_payload; stray_payload])
  = from_scheduled_activity loads init
      (with_payloads
         (event_of 7 EVENT_TYPE_ACTIVITY_TASK_SCHEDULED [slack_payload; stray_payload])
         [slack_payload])
  /\ exists ns name,
      destructure_slugified_namespace "integrations.slack.post_message" "."
      = Ret (ns, name)
      /\ from_scheduled_activity loads init
           (event_of 7 EVENT_TYPE_ACTIVITY_TASK_SCHEDULED [slack_payload; stray_payload])
         = Ret {| eg_event_id := 7;
                  udf_namespace := ns;
                  udf_name := name;
                  udf_key := "integrations.slack.post_message";
                  action_id := None;
                  action_ref := "notify";
                  action_title := "notify";
                  action_description := "";
                  action_input := slack_input;
                  action_result := None |}.
Proof.
  destruct (extra_payloads_ignored string string loads init
              (event_of 7 EVENT_TYPE_ACTIVITY_TASK_SCHEDULED [slack_payload; stray_payload])
              slack_payload [stray_payload] eq_refl eq_refl)
    as (Hfirst & _ & _ & _ & Hgroup); [discriminate |].
  split; [exact Hfirst |].
  apply (Hgroup "slack-run" slack_input); reflexivity.
Defined.

End CorrelatorFacts.

(** * Further properties of the registry *)

Module RegistryMore.

Import Registry RegistryFacts Supplement.

Section Facts.

Variable slugify : string -> string.
Variable sandbox_enter : Role -> option (list string) -> option PyError.

(** X1. A registration that succeeds had a free key and a callable
    object. On a taken key [register] raises the "already registered"
    [ValueError], also when the object is not callable; on a free key
    with an object that is not callable it raises the "not a callable"
    [ValueError]. In both failures the registry is returned as it was. *)
Theorem register_outcome (a : RegisterArgs) (f : PyFunction) (self : Registry) :
  ((exists w, (register slugify a f self).1 = Ret w)
   -> self !! register_key a f = None /\ fn_callable f = true)
  /\ (is_Some (self !! register_key a f) ->
      register slugify a f self = (Raise (DuplicateKey (register_key a f)), self))
  /\ (self !! register_key a f = None -> fn_callable f = false ->
      register slugify a f self = (Raise NotCallable, self)).
Proof.
  split; [| split].
  - intros [w Hw]. destruct (register slugify a f self) as [r self'] eqn:Hr.
    cbn in Hw. subst r. apply register_ok_inv in Hr as (Hfree & Hcall & _). by split.
  - intros Htaken. unfold register. apply contains_true in Htaken. by rewrite Htaken.
  - intros Hfree Hcall. unfold register.
    apply (contains_false slugify) in Hfree. by rewrite Hfree, Hcall.
Qed.


(** Whatever is stored under a key stays there across a registration. *)
Lemma register_keeps_entries (a : RegisterArgs) (f : PyFunction) (self : Registry)
      (k : string) (udf : RegisteredUDF) :
  self !! k = Some udf -> (register slugify a f self).2 !! k = Some udf.
Proof.
  intros Hk. destruct (register slugify a f self) as [[w | e] self'] eqn:Hr; cbn [snd].
  - apply register_ok_inv in Hr as (Hfree & _ & _ & udf' & -> & _).
    rewrite lookup_insert_ne; [done | congruence].
  - by apply register_error_unchanged in Hr as ->.
Qed.

(** X3. [register] never removes or replaces an entry: whatever was stored
    under a key before the call is stored there after it, whether the call
    succeeds or fails, and no key other than the one being registered
    changes. *)
Theorem register_only_grows (a : RegisterArgs) (f : PyFunction) (self : Registry) :
  (forall k udf, self !! k = Some udf -> (register slugify a f self).2 !! k = Some udf)
  /\ (forall k, k <> register_key a f ->
                (register slugify a f self).2 !! k = self !! k).
Proof.
  split; [intros k udf; apply register_keeps_entries |].
  intros k Hk. destruct (register slugify a f self) as [[w | e] self'] eqn:Hr; cbn [snd].
  - apply register_ok_inv in Hr as (_ & _ & _ & udf' & -> & _).
    by rewrite lookup_insert_ne.
  - by apply register_error_unchanged in Hr as ->.
Qed.

(** X4. A later registration, successful or not, does not change what an
    action that is already registered does: its wrapped callable still
    finds its own entry, and every call gives the same result and the same
    trace as before. *)
Theorem later_registration_harmless
        (a : RegisterArgs) (f : PyFunction) (self : Registry) (w : WrappedFn)
        (args : list PyVal) (kwargs : gmap string PyVal) :
  registered slugify self w ->
  registered slugify (register slugify a f self).2 w
  /\ wrapped_fn sandbox_enter (register slugify a f self).2 w args kwargs
     = wrapped_fn sandbox_enter self w args kwargs.
Proof.
  intros Hreg. split.
  - destruct (register slugify a f self) as [r self'] eqn:Hr.
    by apply (registered_preserved slugify a f self self' r).
  - destruct Hreg as (udf & Hl & _).
    unfold wrapped_fn, _validate_args, get.
    by rewrite (register_keeps_entries a f self _ _ Hl), Hl.
Qed.

(** A parameter is satisfied exactly when its field reports no error. *)
Lemma validate_field_nil (kwargs : gmap string PyVal) (p : Param) :
  validate_field kwargs {| f_name := p_name p; f_type := p_annotation p;
                           f_default := p_default p |} = []
  <-> param_satisfied kwargs p.
Proof.
  unfold validate_field, param_satisfied. cbn.
  destruct (kwargs !! p_name p) as [v |].
  - destruct (strict_isinstance v (p_annotation p)); split; congruence.
  - destruct (p_default p); split; try done; by intros [? ?].
Qed.

Lemma flat_map_nil_Forall {A B : Type} (g : A -> list B) (l : list A) :
  flat_map g l = [] <-> Forall (fun x => g x = []) l.
Proof.
  induction l as [| x l IH]; cbn; [by split |].
  rewrite Forall_cons, <- IH. split.
  - by intros [? ?]%app_eq_nil.
  - by intros [-> ->].
Qed.

Lemma validate_args_ok_iff (self : Registry) (w : WrappedFn)
      (kwargs : gmap string PyVal) :
  registered slugify self w ->
  _validate_args self (w_key w) [] kwargs = Ret tt
  <-> Forall (param_satisfied kwargs) (fn_params (w_fn w)).
Proof.
  intros Hreg. rewrite (validate_args_registered slugify _ _ _ Hreg).
  rewrite <- (Forall_iff _ _ _ (validate_field_nil kwargs)).
  rewrite <- (Forall_fmap (fun p => {| f_name := p_name p; f_type := p_annotation p;
                                       f_default := p_default p |})
                          (fun fld => validate_field kwargs fld = [])).
  rewrite <- flat_map_nil_Forall.
  destruct (flat_map _ _); split; congruence.
Qed.


Lemma bound_lookup_param (kw : gmap string PyVal) (ps : list Param) p :
  NoDup (p_name <$> ps) -> p ∈ ps ->
  bound_arguments kw ps !! p_name p
  = match kw !! p_name p with Some v => Some v | None => p_default p end.
Proof.
  induction ps as [| q ps IH]; cbn [fmap list_fmap]; [by intros _ ?%elem_of_nil |].
  intros [Hq Hnd]%NoDup_cons [-> | Hp]%elem_of_cons; unfold bound_arguments;
    cbn [foldr]; fold (bound_arguments kw ps).
  - destruct (kw !! p_name q) as [v |], (p_default q) as [d |];
      rewrite ?lookup_insert_eq; try done.
    by apply bound_lookup_other.
  - assert (p_name q <> p_name p).
    { intros Heq. apply Hq. rewrite Heq. apply list_elem_of_fmap. by exists p. }
    destruct (kw !! p_name q), (p_default q);
      rewrite ?lookup_insert_ne by done; by apply IH.
Qed.

(** X6. A call that passes validation runs the implementation once, inside
    the sandbox. For a registered action whose parameters have distinct
    names, none of them [__role]: if the keywords satisfy every parameter,
    hold no key besides the parameters and [__role], the caller identity is
    the role under [__role] (the service role when the key is absent) and
    the sandbox opens for it, then the call gives back what the body gives
    on the bound arguments, result or exception alike, and its trace is
    sandbox entry, the one invocation, sandbox exit. The bound arguments
    hold, for each parameter, the value passed or else its default, and
    nothing under any other name, [__role] included. *)
Theorem valid_call_runs_implementation
        (self : Registry) (w : WrappedFn) (kwargs : gmap string PyVal) (role : Role) :
  registered slugify self w ->
  NoDup (p_name <$> fn_params (w_fn w)) ->
  "__role" ∉ (p_name <$> fn_params (w_fn w)) ->
  Forall (param_satisfied kwargs) (fn_params (w_fn w)) ->
  (forall k, is_Some (kwargs !! k) -> k = "__role" \/ k ∈ (p_name <$> fn_params (w_fn w))) ->
  default (VRole service_role) (kwargs !! "__role") = VRole role ->
  sandbox_enter role (w_secrets w) = None ->
  exists bound,
    wrapped_fn sandbox_enter self w [] kwargs
    = (fn_body (w_fn w) bound,
       [SandboxEnter role (w_secrets w); Invoke (fn_name (w_fn w)) bound; SandboxExit])
    /\ (forall p, p ∈ fn_params (w_fn w) ->
                  bound !! p_name p
                  = match kwargs !! p_name p with
                    | Some v => Some v
                    | None => p_default p
                    end)
    /\ (forall k, k ∉ (p_name <$> fn_params (w_fn w)) -> bound !! k = None).
Proof.
  intros Hreg Hnd Hnr Hsat Hkeys Hrole Hsb.
  apply (validate_args_ok_iff _ _ _ Hreg) in Hsat as Hval.
  assert (Hname : forall p, p ∈ fn_params (w_fn w) -> p_name p <> "__role").
  { intros p Hp Heq. apply Hnr. rewrite <- Heq. apply list_elem_of_fmap. by exists p. }
  exists (bound_arguments (delete "__role" kwargs) (fn_params (w_fn w))).
  split; [| split].
  - unfold wrapped_fn. rewrite Hval, Hrole, Hsb. unfold py_call, bind_arguments.
    rewrite bool_decide_eq_true_2; cbn [negb].
    2:{ intros k [v Hk]%elem_of_dom. apply elem_of_list_to_set.
        destruct (decide (k = "__role")) as [-> | Hne].
        - by rewrite lookup_delete_eq in Hk.
        - rewrite lookup_delete_ne in Hk by done.
          destruct (Hkeys k) as [? | ?]; [by eexists | done | done]. }
    assert (forallb (fun p => bool_decide (is_Some (delete "__role" kwargs !! p_name p))
                              || bool_decide (is_Some (p_default p)))
                    (fn_params (w_fn w)) = true) as ->.
    { apply forallb_forall. intros p Hp%list_elem_of_In.
      rewrite Forall_forall in Hsat. specialize (Hsat p Hp).
      unfold param_satisfied in Hsat.
      rewrite lookup_delete_ne by (symmetry; by apply Hname).
      destruct (kwargs !! p_name p).
      - rewrite bool_decide_eq_true_2; [done | by eexists].
      - rewrite (bool_decide_eq_true_2 (is_Some (p_default p))) by done.
        apply orb_true_r. }
    cbn [negb]. reflexivity.
  - intros p Hp. rewrite (bound_lookup_param _ _ _ Hnd Hp).
    by rewrite lookup_delete_ne by (symmetry; by apply Hname).
  - intros k Hk. by apply bound_lookup_other.
Qed.

(** X7. The implementation never runs outside the sandbox nor on a call
    that was not validated: whenever the trace of a call shows an
    invocation, the call had no positional argument, the validation step
    returned normally, the sandbox had opened for the caller's role, and
    the trace is exactly sandbox entry, one invocation on the arguments
    bound from the keywords without [__role], sandbox exit. *)
Theorem implementation_runs_only_in_sandbox
        (self : Registry) (w : WrappedFn)
        (args : list PyVal) (kwargs : gmap string PyVal) :
  invoked (wrapped_fn sandbox_enter self w args kwargs).2 = true ->
  args = []
  /\ _validate_args self (w_key w) args kwargs = Ret tt
  /\ exists role bound,
      default (VRole service_role) (kwargs !! "__role") = VRole role
      /\ sandbox_enter role (w_secrets w) = None
      /\ bind_arguments (fn_params (w_fn w)) (delete "__role" kwargs) = Ret bound
      /\ (wrapped_fn sandbox_enter self w args kwargs).2
         = [SandboxEnter role (w_secrets w); Invoke (fn_name (w_fn w)) bound;
            SandboxExit].
Proof.
  unfold wrapped_fn.
  destruct (_validate_args self (w_key w) args kwargs) as [[] | e] eqn:Hval;
    [| discriminate].
  assert (args = []) as ->.
  { destruct args; [done |]. unfold _validate_args in Hval. discriminate. }
  destruct (default (VRole service_role) (kwargs !! "__role")) as [| | | | role |] eqn:Hrole;
    try discriminate.
  destruct (sandbox_enter role (w_secrets w)) eqn:Hsb; [discriminate |].
  unfold py_call.
  destruct (bind_arguments (fn_params (w_fn w)) (delete "__role" kwargs))
    as [bound | e] eqn:Hb; [| discriminate].
  intros _. repeat split; try done. by exists role, bound.
Qed.


End Facts.

(** ** Parameter documentation *)

Lemma docs_of_param_lookup (docs : gmap string string) (n : string)
      (ds : list string) (k : string) :
  foldl (fun docs d => <[n := d]> docs) docs ds !! k
  = if decide (k = n)
    then match last ds with Some d => Some d | None => docs !! k end
    else docs !! k.
Proof.
  revert docs. induction ds as [| d ds IH]; intros docs; cbn [foldl].
  - by destruct (decide (k = n)).
  - rewrite IH. destruct (decide (k = n)) as [-> | Hne].
    + destruct ds as [| d' ds]; cbn [last]; [by rewrite lookup_insert_eq |].
      destruct (last (d' :: ds)) eqn:Hl; [done |].
      by apply last_None in Hl.
    + by rewrite lookup_insert_ne.
Qed.

Lemma signature_docs_acc (ps : list Param) (docs : gmap string string) :
  (forall k, k ∉ (p_name <$> ps) ->
             foldl (fun docs p =>
                      foldl (fun docs d => <[p_name p := d]> docs) docs (p_docs p))
                   docs ps !! k = docs !! k)
  /\ (NoDup (p_name <$> ps) ->
      forall p, p ∈ ps ->
                foldl (fun docs p =>
                         foldl (fun docs d => <[p_name p := d]> docs) docs (p_docs p))
                      docs ps !! p_name p
                = match last (p_docs p) with
                  | Some d => Some d
                  | None => docs !! p_name p
                  end).
Proof.
  revert docs. induction ps as [| q ps IH]; intros docs; cbn [foldl fmap list_fmap].
  - split; [done |]. by intros _ p ?%elem_of_nil.
  - destruct (IH (foldl (fun docs d => <[p_name q := d]> docs) docs (p_docs q)))
      as [IH1 IH2].
    split.
    + intros k [Hq Hps]%not_elem_of_cons. rewrite IH1 by done.
      rewrite docs_of_param_lookup. by destruct (decide (k = p_name q)).
    + intros [Hq Hnd]%NoDup_cons p [-> | Hp]%elem_of_cons.
      * rewrite IH1 by done. rewrite docs_of_param_lookup.
        by destruct (decide (p_name q = p_name q)).
      * rewrite (IH2 Hnd p Hp). rewrite docs_of_param_lookup.
        destruct (decide (p_name p = p_name q)) as [Heq | Hne]; [| done].
        exfalso. apply Hq. rewrite <- Heq. apply list_elem_of_fmap. by exists p.
Qed.

(** X9. [_get_signature_docs] maps each parameter that carries [Doc]
    metadata to the documentation of its last [Doc] entry, and has no
    entry for a parameter without one nor for any other name (parameter
    names being distinct, as in every Python signature). *)
Theorem signature_docs_lookup (f : PyFunction) :
  NoDup (p_name <$> fn_params f) ->
  (forall p, p ∈ fn_params f -> _get_signature_docs f !! p_name p = last (p_docs p))
  /\ (forall k, k ∉ (p_name <$> fn_params f) -> _get_signature_docs f !! k = None).
Proof.
  intros Hnd. unfold _get_signature_docs.
  destruct (signature_docs_acc (fn_params f) ∅) as [H1 H2]. split.
  - intros p Hp. rewrite (H2 Hnd p Hp). by destruct (last (p_docs p)).
  - intros k Hk. by rewrite H1.
Qed.

Import Examples.

Lemma reg_greet_registered : registered slugify_id reg_greet w_greet.
Proof.
  apply (register_registered slugify_id chat_args greet reg_add). vm_compute. reflexivity.
Defined.

(** Witness of X1: a module object offered under the free key [core.os]. *)
Lemma register_outcome_witness :
  register slugify_id core_args not_a_function reg_add = (Raise NotCallable, reg_add).
Proof.
  apply (register_outcome slugify_id core_args not_a_function reg_add);
    vm_compute; reflexivity.
Defined.


(** Witness of X3: registering [greet] leaves [core.add] in place. *)
Lemma register_only_grows_witness :
  reg_greet !! "core.add" = reg_add !! "core.add".
Proof.
  apply (register_only_grows slugify_id chat_args greet reg_add). discriminate.
Defined.

(** Witness of X4: [add] called after [greet] was registered. *)
Lemma later_registration_harmless_witness :
  registered slugify_id reg_greet w_add
  /\ wrapped_fn sandbox_ok reg_greet w_add [] kw_a_b
     = wrapped_fn sandbox_ok reg_add w_add [] kw_a_b.
Proof.
  apply (later_registration_harmless slugify_id sandbox_ok chat_args greet
           reg_add w_add [] kw_a_b reg_add_registered).
Defined.



(** Witness of X6: [greet(name="ada", __role=caller)]; [times] takes its
    default and the body answers on it. *)
Lemma valid_call_runs_implementation_witness :
  exists bound,
    wrapped_fn sandbox_ok reg_greet w_greet [] kw_greet
    = (fn_body greet bound,
       [SandboxEnter caller (Some ["chat_token"]); Invoke "greet" bound; SandboxExit])
    /\ fn_body greet bound = Ret (VStr "hello ada")
    /\ bound !! "times" = Some (VInt 1)
    /\ bound !! "__role" = None.
Proof.
  destruct (valid_call_runs_implementation slugify_id sandbox_ok
              reg_greet w_greet kw_greet caller reg_greet_registered)
    as (bound & Hcall & Hparams & Hother).
  - apply (bool_decide_unpack _). vm_compute. exact I.
  - apply (bool_decide_unpack _). vm_compute. exact I.
  - repeat constructor. by eexists.
  - intros k. cbn [w_greet w_fn greet fn_params fmap list_fmap p_name].
    unfold kw_greet. intros [v Hk].
    destruct (decide (k = "name")) as [-> | Hn].
    + right. apply list_elem_of_here.
    + rewrite lookup_insert_ne in Hk by done.
      destruct (decide (k = "__role")) as [-> | Hr]; [by left |].
      rewrite lookup_insert_ne in Hk by done. by rewrite lookup_empty in Hk.
  - reflexivity.
  - reflexivity.
  - exists bound. split; [exact Hcall |].
    pose proof (Hparams {| p_name := "name"; p_annotation := TStr;
                           p_default := None; p_docs := ["old"; "Who to greet"] |}
                        (list_elem_of_here _ _)) as Hname.
    pose proof (Hparams {| p_name := "times"; p_annotation := TInt;
                           p_default := Some (VInt 1); p_docs := [] |}
                        (list_elem_of_further _ _ _ (list_elem_of_here _ _))) as Htimes.
    cbn [p_name p_default] in Hname, Htimes.
    change (kw_greet !! "name") with (Some (VStr "ada")) in Hname.
    change (kw_greet !! "times") with (@None PyVal) in Htimes.
    split; [| split].
    + cbn [greet fn_body]. by rewrite Hname, Htimes.
    + exact Htimes.
    + apply Hother. apply (bool_decide_unpack _). vm_compute. exact I.
Defined.

(** Witness of X7: the trace of [add(a=1, b=2)] shows an invocation. *)
Lemma implementation_runs_only_in_sandbox_witness :
  _validate_args reg_add "core.add" [] kw_a_b = Ret tt
  /\ exists role bound,
      default (VRole service_role) (kw_a_b !! "__role") = VRole role
      /\ sandbox_ok role None = None
      /\ bind_arguments (fn_params add) (delete "__role" kw_a_b) = Ret bound
      /\ (wrapped_fn sandbox_ok reg_add w_add [] kw_a_b).2
         = [SandboxEnter role None; Invoke "add" bound; SandboxExit].
Proof.
  apply (implementation_runs_only_in_sandbox sandbox_ok reg_add w_add [] kw_a_b).
  vm_compute. reflexivity.
Defined.


(** Witness of X9: the documentation of [greet]. *)
Lemma signature_docs_lookup_witness :
  _get_signature_docs greet !! "name" = Some "Who to greet"
  /\ _get_signature_docs greet !! "times" = None
  /\ _get_signature_docs greet !! "self" = None.
Proof.
  destruct (signature_docs_lookup greet) as [Hparam Hother].
  - apply (bool_decide_unpack _). vm_compute. exact I.
  - split; [| split].
    + apply (Hparam {| p_name := "name"; p_annotation := TStr;
                       p_default := None; p_docs := ["old"; "Who to greet"] |}).
      apply list_elem_of_here.
    + apply (Hparam {| p_name := "times"; p_annotation := TInt;
                       p_default := Some (VInt 1); p_docs := [] |}).
      apply list_elem_of_further, list_elem_of_here.
    + apply Hother. apply (bool_decide_unpack _). vm_compute. exact I.
Defined.

End RegistryMore.

(** * Further properties of the invocation controller *)

Module ActionMore.

Import Action ActionFacts.

Section Facts.

Variables Handle StoreObjectPtr : Type.
Variable locator : ActionStatement -> string -> string.

Implicit Type w : World Handle StoreObjectPtr.

(** The result of each activity once the delay phase has ended normally. *)
Lemma memory_result_after_delay w input role :
  (start_delay_phase w (task input)).1 = None ->
  (run_action_activity locator w input role).1
  = match run_action_memory_backend w role input with
    | Ret v => Returned v
    | Raise e => classify_memory locator (task input) (attempt w) e
    end.
Proof.
  intros Hd. unfold run_action_activity.
  by destruct (start_delay_phase w (task input)) as [[e |] tr]; [discriminate |].
Qed.

Lemma store_result_after_delay w input role :
  (start_delay_phase w (task input)).1 = None ->
  (run_action_with_store_activity locator w input role).1
  = match run_action_store_backend w role input with
    | Ret handle =>
        match to_pointer w handle with
        | Ret ptr => Returned ptr
        | Raise e => classify_store locator (task input) (attempt w) e
        end
    | Raise e => classify_store locator (task input) (attempt w) e
    end.
Proof.
  intros Hd. unfold run_action_with_store_activity.
  by destruct (start_delay_phase w (task input)) as [[e |] tr]; [discriminate |].
Qed.

(** When the delay phase ends in an exception, so does the activity. *)
Lemma memory_result_delay_raised w input role e :
  (start_delay_phase w (task input)).1 = Some e ->
  (run_action_activity locator w input role).1 = Propagated e.
Proof.
  unfold run_action_activity.
  destruct (start_delay_phase w (task input)) as [[e' |] tr]; cbn; congruence.
Qed.

Lemma store_result_delay_raised w input role e :
  (start_delay_phase w (task input)).1 = Some e ->
  (run_action_with_store_activity locator w input role).1 = Propagated e.
Proof.
  unfold run_action_with_store_activity.
  destruct (start_delay_phase w (task input)) as [[e' |] tr]; cbn; congruence.
Qed.

Lemma delay_phase_cases w task :
  (start_delay_phase w task).1 = None \/ exists e, (start_delay_phase w task).1 = Some e.
Proof. destruct (start_delay_phase w task).1; eauto. Qed.

(** X10. A structured [ApplicationError] raised by the memory backend is
    wrapped again with its own retry flag and its own type tag; the message
    is its [message] behind the locator of the current attempt, and the
    attached error info records the exception text, the current attempt
    and, as type, the tag when it is set and non-empty, the class name
    otherwise. *)
Theorem nested_application_error_passthrough
        w input role (cls text : string) (e : ApplicationError) :
  (start_delay_phase w (task input)).1 = None ->
  run_action_memory_backend w role input = Raise (NestedApplicationError cls text e) ->
  exists f info,
    (run_action_activity locator w input role).1 = Failed f
    /\ non_retryable f = non_retryable e
    /\ type f = type e
    /\ message f = _contextualize_message locator (task input) (message e)
                     (attempt w) "run_action"
    /\ details f = [info]
    /\ info_ref info = ref (task input)
    /\ info_message info = text
    /\ info_attempt info = attempt w
    /\ (forall t, type e = Some t -> t <> "" -> info_type info = t)
    /\ (type e = None \/ type e = Some "" -> info_type info = cls).
Proof.
  intros Hd Hc. rewrite (memory_result_after_delay _ _ _ Hd), Hc.
  cbn [classify_memory]. do 2 eexists. split; [reflexivity |].
  cbn. repeat split.
  - intros t -> Ht. by destruct (String.eqb_spec t "").
  - by intros [-> | ->].
Qed.

(** X11. The memory-backend run returns a value exactly when its delay
    phase ends normally and the backend returns that value: the raw result
    of the action, unchanged. *)
Theorem memory_run_returns_raw_value w input role (v : PyVal) :
  (run_action_activity locator w input role).1 = Returned v
  <-> (start_delay_phase w (task input)).1 = None
      /\ run_action_memory_backend w role input = Ret v.
Proof.
  split.
  - destruct (delay_phase_cases w (task input)) as [Hd | [e Hd]].
    + rewrite (memory_result_after_delay _ _ _ Hd).
      destruct (run_action_memory_backend w role input) as [v' | e]; [by intros [= ->] |].
      by destruct e.
    + by rewrite (memory_result_delay_raised _ _ _ _ Hd).
  - intros [Hd Hc]. by rewrite (memory_result_after_delay _ _ _ Hd), Hc.
Qed.

(** X12. Exceptions that do not derive from [Exception] (a cancellation,
    for one) are never turned into a failure of the controller's own: when
    the suspension raises, whatever it raises, and when the client or the
    handle conversion raises such an exception, both activities end with
    that very exception. *)
Theorem uncaught_exceptions_propagate w input role (e : PyExc) :
  ((0 < start_delay (task input))%Z -> sleep w (start_delay (task input)) = Some e ->
   (run_action_activity locator w input role).1 = Propagated e
   /\ (run_action_with_store_activity locator w input role).1 = Propagated e)
  /\ ((start_delay_phase w (task input)).1 = None -> is_Exception e = false ->
      (run_action_memory_backend w role input = Raise e ->
       (run_action_activity locator w input role).1 = Propagated e)
      /\ (run_action_store_backend w role input = Raise e ->
          (run_action_with_store_activity locator w input role).1 = Propagated e)
      /\ (forall handle, run_action_store_backend w role input = Ret handle ->
                         to_pointer w handle = Raise e ->
                         (run_action_with_store_activity locator w input role).1
                         = Propagated e)).
Proof.
  split.
  - intros Hpos Hs.
    assert ((start_delay_phase w (task input)).1 = Some e) as Hd
        by (by rewrite (start_delay_phase_pos _ _ w _ Hpos)).
    by rewrite (memory_result_delay_raised _ _ _ _ Hd),
               (store_result_delay_raised _ _ _ _ Hd).
  - intros Hd He.
    rewrite (memory_result_after_delay _ _ _ Hd), (store_result_after_delay _ _ _ Hd).
    destruct e; try discriminate. split; [| split].
    + by intros ->.
    + by intros ->.
    + by intros handle -> ->.
Qed.

(** X13. Every failure either activity raises of its own carries exactly
    one [DSLTaskErrorInfo], whose [ref] is the task's and whose [attempt] is
    the current attempt, and a message that begins with the locator of the
    task and that attempt. *)
Theorem surfaced_failure_carries_info w input role (f : ApplicationError) :
  (run_action_activity locator w input role).1 = Failed f
  \/ (run_action_with_store_activity locator w input role).1 = Failed f ->
  exists info body,
    details f = [info]
    /\ info_ref info = ref (task input)
    /\ info_attempt info = attempt w
    /\ message f = _contextualize_message locator (task input) body
                     (attempt w) "run_action".
Proof.
  destruct (delay_phase_cases w (task input)) as [Hd | [e Hd]].
  - rewrite (memory_result_after_delay _ _ _ Hd), (store_result_after_delay _ _ _ Hd).
    intros [H | H].
    + destruct (run_action_memory_backend w role input) as [v | e]; [discriminate |].
      destruct e; cbn in H; try discriminate; injection H as <-; by do 2 eexists.
    + assert (Hcls : forall e, @classify_store StoreObjectPtr locator (task input)
                                 (attempt w) e = Failed f ->
                               exists info body,
                                 details f = [info]
                                 /\ info_ref info = ref (task input)
                                 /\ info_attempt info = attempt w
                                 /\ message f
                                    = _contextualize_message locator (task input) body
                                        (attempt w) "run_action").
      { intros e. unfold classify_store.
        destruct (is_Exception e); [| discriminate].
        intros [= <-]. by do 2 eexists. }
      destruct (run_action_store_backend w role input) as [handle | e]; [| by eapply Hcls].
      destruct (to_pointer w handle) as [ptr | e]; [discriminate | by eapply Hcls].
  - rewrite (memory_result_delay_raised _ _ _ _ Hd),
            (store_result_delay_raised _ _ _ _ Hd).
    by intros [? | ?].
Qed.

(** X14. In store mode every exception that derives from [Exception] is
    surfaced the same way, whether the backend raised it or the conversion
    of the handle did, and whatever its class: a retryable failure without
    type tag, whose message is the exception text behind the locator. The
    retry flag and the tag of a nested [ApplicationError] are not kept. *)
Theorem store_exception_surfaced_retryable w input role (e : PyExc) :
  (start_delay_phase w (task input)).1 = None ->
  is_Exception e = true ->
  run_action_store_backend w role input = Raise e
  \/ (exists handle, run_action_store_backend w role input = Ret handle
                     /\ to_pointer w handle = Raise e) ->
  (run_action_with_store_activity locator w input role).1
  = Failed {| message := _contextualize_message locator (task input) (str e)
                           (attempt w) "run_action";
              details := [{| info_ref := ref (task input);
                             info_message := str e;
                             info_type := class_name e;
                             info_attempt := attempt w |}];
              type := None;
              non_retryable := false |}.
Proof.
  intros Hd He Hc. rewrite (store_result_after_delay _ _ _ Hd).
  destruct Hc as [-> | (handle & -> & ->)]; unfold classify_store; by rewrite He.
Qed.

(** X15. No store-mode failure is fatal or tagged: whenever the store-mode
    activity raises a failure of its own, the failure is retryable and has
    no type tag. *)
Theorem store_failures_never_fatal w input role (f : ApplicationError) :
  (run_action_with_store_activity locator w input role).1 = Failed f ->
  non_retryable f = false /\ type f = None.
Proof.
  destruct (delay_phase_cases w (task input)) as [Hd | [e Hd]].
  - rewrite (store_result_after_delay _ _ _ Hd).
    assert (Hcls : forall e, @classify_store StoreObjectPtr locator (task input)
                               (attempt w) e = Failed f ->
                             non_retryable f = false /\ type f = None).
    { intros e. unfold classify_store. destruct (is_Exception e); [| discriminate].
      by intros [= <-]. }
    destruct (run_action_store_backend w role input) as [handle | e]; [| by apply Hcls].
    destruct (to_pointer w handle) as [ptr | e]; [discriminate | by apply Hcls].
  - by rewrite (store_result_delay_raised _ _ _ _ Hd).
Qed.

(** X16. A memory-backend failure is fatal only for one of two reasons:
    the backend raised an exception that is neither a domain error nor an
    [ApplicationError], or it raised an [ApplicationError] that was itself
    marked non-retryable. A domain error never yields a fatal failure. *)
Theorem memory_fatal_origin w input role (f : ApplicationError) :
  (run_action_activity locator w input role).1 = Failed f ->
  non_retryable f = true ->
  (exists kind text,
      run_action_memory_backend w role input = Raise (OtherException kind text))
  \/ (exists cls text e,
         run_action_memory_backend w role input
         = Raise (NestedApplicationError cls text e)
         /\ non_retryable e = true).
Proof.
  destruct (delay_phase_cases w (task input)) as [Hd | [e Hd]].
  - rewrite (memory_result_after_delay _ _ _ Hd).
    destruct (run_action_memory_backend w role input) as [v | e]; [discriminate |].
    destruct e as [kind msg detail intent | cls text e | kind text | cls text];
      cbn [classify_memory]; try discriminate; intros [= <-] Hnr; cbn in Hnr.
    + discriminate.
    + right. by exists cls, text, e.
    + left. by exists kind, text.
  - by rewrite (memory_result_delay_raised _ _ _ _ Hd).
Qed.

(** X17. One attempt dispatches at most once and suspends at most once;
    it never suspends when [start_delay] is zero or negative, and then its
    trace is the single dispatch. The controller does not retry by
    itself. *)
Theorem single_dispatch_per_attempt w input role :
  (length (List.filter is_dispatch
                  (run_action_activity locator w input role).2) <= 1)%nat
  /\ (length (List.filter is_dispatch
                     (run_action_with_store_activity locator w input role).2) <= 1)%nat
  /\ (length (List.filter is_sleep
                     (run_action_activity locator w input role).2) <= 1)%nat
  /\ (length (List.filter is_sleep
                     (run_action_with_store_activity locator w input role).2) <= 1)%nat
  /\ ((start_delay (task input) <= 0)%Z ->
      (run_action_activity locator w input role).2 = [DispatchMemory role input]
      /\ (run_action_with_store_activity locator w input role).2
         = [DispatchStore role input]).
Proof.
  rewrite (memory_trace _ _ locator), (store_trace _ _ locator).
  destruct (Z.ltb_spec 0 (start_delay (task input))) as [Hpos | Hle].
  - rewrite (start_delay_phase_pos _ _ w _ Hpos). cbn [fst snd].
    destruct (sleep w (start_delay (task input))); cbn; repeat split; lia.
  - rewrite (start_delay_phase_nonpos _ _ w _ Hle). cbn. repeat split; lia.
Qed.

End Facts.

Import Examples Supplement.

(** Witness of X10: a fatal [TimeoutError] failure from a nested call. *)
Lemma nested_application_error_passthrough_witness :
  exists f info,
    (run_action_activity context_locator (world_raising 2 upstream_timeout)
       (input_of (step "core.http" "fetch" 0)) caller).1 = Failed f
    /\ non_retryable f = true
    /\ type f = Some "TimeoutError"
    /\ message f = "[core.http@fetch] (Attempt 2)" +:+ nl +:+ nl +:+ "upstream timed out"
    /\ details f = [info]
    /\ info_message info = "TimeoutError: upstream timed out"
    /\ info_type info = "TimeoutError".
Proof.
  destruct (nested_application_error_passthrough string string context_locator
              (world_raising 2 upstream_timeout) (input_of (step "core.http" "fetch" 0))
              caller "ApplicationError" "TimeoutError: upstream timed out"
              {| message := "upstream timed out"; details := [];
                 type := Some "TimeoutError"; non_retryable := true |}
              eq_refl eq_refl)
    as (f & info & Hf & Hnr & Hty & Hmsg & Hd & _ & Him & _ & Hit & _).
  exists f, info. repeat split; try done.
  by apply Hit.
Defined.

(** Witness of X11: the memory backend returns a payload. *)
Lemma memory_run_returns_raw_value_witness :
  (run_action_activity context_locator (world_ok None)
     (input_of (step "core.big" "step1" 0)) caller).1
  = Returned (VStr "a large payload").
Proof.
  apply (memory_run_returns_raw_value string string context_locator (world_ok None)
           (input_of (step "core.big" "step1" 0)) caller).
  split; reflexivity.
Defined.

(** Witness of X12: a cancellation while the attempt waits, and one raised
    by the client. *)
Lemma uncaught_exceptions_propagate_witness :
  (run_action_activity context_locator (world_ok (Some cancelled_error))
     (input_of (step "core.add" "step1" 5)) caller).1 = Propagated cancelled_error
  /\ (run_action_with_store_activity context_locator (world_raising 1 cancelled_error)
        (input_of (step "core.add" "step1" 0)) caller).1 = Propagated cancelled_error.
Proof.
  split.
  - destruct (uncaught_exceptions_propagate string string context_locator
                (world_ok (Some cancelled_error)) (input_of (step "core.add" "step1" 5))
                caller cancelled_error) as [Hsleep _].
    apply Hsleep; reflexivity.
  - destruct (uncaught_exceptions_propagate string string context_locator
                (world_raising 1 cancelled_error) (input_of (step "core.add" "step1" 0))
                caller cancelled_error) as [_ Hclient].
    apply Hclient; reflexivity.
Defined.

(** Witness of X13: the failure of the memory run on a [RuntimeError]. *)
Lemma surfaced_failure_carries_info_witness :
  exists info body,
    [{| info_ref := "step2";
        info_message := "RuntimeError occurred:" +:+ nl +:+ "disk full";
        info_type := "RuntimeError";
        info_attempt := 2 |}] = [info]
    /\ info_ref info = "step2"
    /\ info_attempt info = 2%Z
    /\ "[core.big@step2] (Attempt 2)" +:+ nl +:+ nl
         +:+ "RuntimeError occurred:" +:+ nl +:+ "disk full"
       = _contextualize_message context_locator (step "core.big" "step2" 0) body 2
           "run_action".
Proof.
  apply (surfaced_failure_carries_info string string context_locator
           (world_raising 2 disk_full) (input_of (step "core.big" "step2" 0)) caller
           {| message := "[core.big@step2] (Attempt 2)" +:+ nl +:+ nl
                           +:+ "RuntimeError occurred:" +:+ nl +:+ "disk full";
              details := [{| info_ref := "step2";
                             info_message := "RuntimeError occurred:" +:+ nl
                                               +:+ "disk full";
                             info_type := "RuntimeError";
                             info_attempt := 2 |}];
              type := Some "RuntimeError";
              non_retryable := true |}).
  left. reflexivity.
Defined.

(** Witness of X14: the handle cannot be converted; and a nested failure
    that was fatal comes out retryable. *)
Lemma store_exception_surfaced_retryable_witness :
  (run_action_with_store_activity context_locator world_bad_pointer
     (input_of (step "core.big" "step1" 0)) caller).1
  = Failed {| message := "[core.big@step1] (Attempt 3)" +:+ nl +:+ nl +:+ "results/step1";
              details := [{| info_ref := "step1";
                             info_message := "results/step1";
                             info_type := "KeyError";
                             info_attempt := 3 |}];
              type := None;
              non_retryable := false |}
  /\ (run_action_with_store_activity context_locator (world_raising 2 upstream_timeout)
        (input_of (step "core.http" "fetch" 0)) caller).1
     = Failed {| message := "[core.http@fetch] (Attempt 2)" +:+ nl +:+ nl
                              +:+ "TimeoutError: upstream timed out";
                 details := [{| info_ref := "fetch";
                                info_message := "TimeoutError: upstream timed out";
                                info_type := "ApplicationError";
                                info_attempt := 2 |}];
                 type := None;
                 non_retryable := false |}.
Proof.
  split.
  - apply (store_exception_surfaced_retryable string string context_locator
             world_bad_pointer (input_of (step "core.big" "step1" 0)) caller
             (OtherException "KeyError" "results/step1")); [reflexivity | reflexivity |].
    right. by exists "results/step1".
  - apply (store_exception_surfaced_retryable string string context_locator
             (world_raising 2 upstream_timeout) (input_of (step "core.http" "fetch" 0))
             caller upstream_timeout); [reflexivity | reflexivity |].
    by left.
Defined.

(** Witness of X15: the store-mode failure on a fatal nested failure. *)
Lemma store_failures_never_fatal_witness :
  non_retryable
    {| message := "[core.http@fetch] (Attempt 2)" +:+ nl +:+ nl
                    +:+ "TimeoutError: upstream timed out";
       details := [{| info_ref := "fetch";
                      info_message := "TimeoutError: upstream timed out";
                      info_type := "ApplicationError";
                      info_attempt := 2 |}];
       type := None;
       non_retryable := false |} = false
  /\ @None string = None.
Proof.
  apply (store_failures_never_fatal string string context_locator
           (world_raising 2 upstream_timeout) (input_of (step "core.http" "fetch" 0))
           caller
           {| message := "[core.http@fetch] (Attempt 2)" +:+ nl +:+ nl
                           +:+ "TimeoutError: upstream timed out";
              details := [{| info_ref := "fetch";
                             info_message := "TimeoutError: upstream timed out";
                             info_type := "ApplicationError";
                             info_attempt := 2 |}];
              type := None;
              non_retryable := false |}).
  reflexivity.
Defined.

(** Witness of X16: the fatal failure on a [RuntimeError]. *)
Lemma memory_fatal_origin_witness :
  (exists kind text,
      run_action_memory_backend (world_raising 2 disk_full) caller
        (input_of (step "core.big" "step2" 0)) = Raise (OtherException kind text))
  \/ (exists cls text e,
         run_action_memory_backend (world_raising 2 disk_full) caller
           (input_of (step "core.big" "step2" 0))
         = Raise (NestedApplicationError cls text e)
         /\ non_retryable e = true).
Proof.
  apply (memory_fatal_origin string string context_locator
           (world_raising 2 disk_full) (input_of (step "core.big" "step2" 0)) caller
           {| message := "[core.big@step2] (Attempt 2)" +:+ nl +:+ nl
                           +:+ "RuntimeError occurred:" +:+ nl +:+ "disk full";
              details := [{| info_ref := "step2";
                             info_message := "RuntimeError occurred:" +:+ nl
                                               +:+ "disk full";
                             info_type := "RuntimeError";
                             info_attempt := 2 |}];
              type := Some "RuntimeError";
              non_retryable := true |}); reflexivity.
Defined.

(** Witness of X17: a negative [start_delay] gives no suspension. *)
Lemma single_dispatch_per_attempt_witness :
  (run_action_activity context_locator (world_ok None)
     (input_of (step "core.add" "step1" (-3))) caller).2
  = [DispatchMemory caller (input_of (step "core.add" "step1" (-3)))]
  /\ (run_action_with_store_activity context_locator (world_ok None)
        (input_of (step "core.add" "step1" (-3))) caller).2
     = [DispatchStore caller (input_of (step "core.add" "step1" (-3)))].
Proof.
  apply (single_dispatch_per_attempt string string context_locator (world_ok None)
           (input_of (step "core.add" "step1" (-3))) caller).
  apply Z.leb_le. reflexivity.
Defined.

End ActionMore.

(** * Further properties of the history correlator *)

Module CorrelatorMore.

Import Correlator CorrelatorFacts.

(** ** Splitting and joining *)

Lemma prefix_true_app (a b : string) :
  String.prefix a b = true -> exists r, b = a +:+ r.
Proof.
  revert b. induction a as [| c a IH]; intros b.
  - intros _. by exists b.
  - destruct b as [| c' b]; cbn [String.prefix]; [discriminate |].
    destruct (ascii_dec c c') as [<- | _]; [| discriminate].
    intros [r ->]%IH. by exists r.
Qed.

Lemma length_app_string (a b : string) :
  String.length (a +:+ b) = (String.length a + String.length b)%nat.
Proof.
  induction a as [| c a IH]; [done |].
  change (String c a +:+ b) with (String c (a +:+ b)). cbn [String.length]. by rewrite IH.
Qed.

Lemma split_go_skip (sep t s : string) :
  split_go sep (String.length t) (t +:+ s) = split_go sep 0 s.
Proof.
  induction t as [| c t IH]; [done |].
  change (String c t +:+ s) with (String c (t +:+ s)). cbn [String.length split_go].
  exact IH.
Qed.

Lemma split_go_nonempty (sep : string) (k : nat) (s : string) :
  split_go sep k s <> [].
Proof.
  revert k. induction s as [| c s IH]; intros k; [done |].
  destruct k as [| k]; cbn [split_go]; [| by apply IH].
  destruct (String.prefix sep (String c s)); [done |].
  by destruct (split_go sep 0 s).
Qed.

Lemma concat_cons_char (sep : string) (c : ascii) (piece : string) (pieces : list string) :
  String.concat sep (String c piece :: pieces)
  = String c (String.concat sep (piece :: pieces)).
Proof. by destruct pieces. Qed.

(** [sep.join(s.split(sep))] is [s]. *)
Lemma split_go_join (sep : string) (n : nat) (s : string) :
  sep <> "" -> (String.length s <= n)%nat ->
  String.concat sep (split_go sep 0 s) = s.
Proof.
  intros Hsep. revert s. induction n as [| n IH]; intros s Hlen.
  - by destruct s; [| cbn in Hlen; lia].
  - destruct s as [| c s]; [done |]. cbn [String.length] in Hlen.
    cbn [split_go]. destruct (String.prefix sep (String c s)) eqn:Hp.
    + apply prefix_true_app in Hp as [r Hr].
      destruct sep as [| c0 t]; [done |].
      change (String c0 t +:+ r) with (String c0 (t +:+ r)) in Hr.
      injection Hr as -> ->.
      replace (String.length (String c0 t) - 1)%nat with (String.length t)
        by (cbn [String.length]; lia).
      rewrite split_go_skip. cbn [String.length] in Hlen.
      rewrite length_app_string in Hlen.
      pose proof (split_go_nonempty (String c0 t) 0 r) as Hne.
      specialize (IH r ltac:(lia)).
      destruct (split_go (String c0 t) 0 r) as [| piece pieces]; [done |].
      cbn [String.concat]. cbn [String.concat] in IH. by rewrite IH.
    + pose proof (split_go_nonempty sep 0 s) as Hne.
      specialize (IH s ltac:(lia)).
      destruct (split_go sep 0 s) as [| piece pieces]; [done |].
      by rewrite concat_cons_char, IH.
Qed.

Lemma unpack_last_snoc (parts : list string) :
  parts <> [] ->
  exists stem leaf, unpack_last parts = Ret (stem, leaf) /\ parts = (stem ++ [leaf])%list.
Proof.
  induction parts as [| p parts IH]; [done |]. intros _.
  destruct parts as [| q parts]; [by exists [], p |].
  destruct IH as (stem & leaf & Hu & Hs); [done |].
  exists (p :: stem), leaf. split; [by apply unpack_last_cons | by rewrite Hs].
Qed.

(** X18. With a non-empty delimiter [destructure_slugified_namespace]
    never raises: the pieces of the input, a stem and a last piece, joined
    again by the delimiter give the input back, the returned name is the
    last piece and the returned namespace is the stem joined by dots
    instead. With the empty delimiter it raises the [ValueError] of
    [str.split]. *)
Theorem destructure_pieces (s sep : string) :
  (sep <> "" ->
   exists stem leaf,
     destructure_slugified_namespace s sep = Ret (String.concat "." stem, leaf)
     /\ String.concat sep (stem ++ [leaf]) = s)
  /\ destructure_slugified_namespace s "" = Raise (ValueError "empty separator").
Proof.
  split; [| done]. intros Hsep.
  destruct (unpack_last_snoc (split_go sep 0 s) (split_go_nonempty sep 0 s))
    as (stem & leaf & Hu & Hs).
  exists stem, leaf. split.
  - unfold destructure_slugified_namespace, split.
    destruct sep; [done |]. by rewrite Hu.
  - rewrite <- Hs. by apply (split_go_join sep (String.length s)).
Qed.

(** X19. Split on dots, every key has an answer: the name is free of
    dots; a key that holds a dot is the namespace, a dot and the name, so
    the dot that is cut is the last one; a key without a dot comes back
    whole as the name, under the empty namespace. *)
Theorem destructure_dotted_key (key : string) :
  exists ns name,
    destructure_slugified_namespace key "." = Ret (ns, name)
    /\ occurs "." name = false
    /\ (occurs "." key = true -> key = ns +:+ "." +:+ name)
    /\ (occurs "." key = false -> ns = "" /\ name = key).
Proof.
  destruct (occurs "." key) eqn:Hk.
  - destruct (last_dot_decomposition key Hk) as (ns & name & -> & Hname).
    exists ns, name. by rewrite (destructure_dot ns name Hname).
  - exists "", key. by rewrite (destructure_no_dot key Hk).
Qed.

(** X20. The key under which the registry files an action, split again on
    dots, gives back the namespace the action was registered in and the
    name of its function, provided the function name holds no dot. *)
Theorem registered_key_destructures (a : Registry.RegisterArgs) (f : Registry.PyFunction) :
  occurs "." (Registry.fn_name f) = false ->
  destructure_slugified_namespace (Registry.register_key a f) "."
  = Ret (Registry.r_namespace a, Registry.fn_name f).
Proof. intros Hname. unfold Registry.register_key. by apply destructure_dot. Qed.

Section Facts.

Variables Json ProtoMsg Dict : Type.
Variable orjson_loads : string -> Outcome Json.
Variable UDFActionInput_init : Json -> Outcome RunActionInput.
Variable MessageToDict : ProtoMsg -> Dict.

Implicit Type event : HistoryEvent ProtoMsg.

(** X21. An activity-scheduled event that records no payload at all makes
    [from_scheduled_activity] raise [IndexError]: nothing is decoded. *)
Theorem scheduled_event_without_payload event :
  event_type event = EVENT_TYPE_ACTIVITY_TASK_SCHEDULED ->
  payloads (input (activity_task_scheduled_event_attributes event)) = [] ->
  exists msg,
    from_scheduled_activity orjson_loads UDFActionInput_init event
    = Raise (IndexError msg).
Proof.
  intros Hty Hp. unfold from_scheduled_activity.
  rewrite Hty, Hp, bool_decide_eq_true_2 by done. by eexists.
Qed.

(** X22. For an activity-scheduled event, an exception of the JSON decoder
    on the first payload, or of the construction of the run input from the
    decoded value, leaves [from_scheduled_activity] unchanged. *)
Theorem decoding_errors_propagate event payload rest (e : PyError) :
  event_type event = EVENT_TYPE_ACTIVITY_TASK_SCHEDULED ->
  payloads (input (activity_task_scheduled_event_attributes event)) = payload :: rest ->
  (orjson_loads (data payload) = Raise e ->
   from_scheduled_activity orjson_loads UDFActionInput_init event = Raise e)
  /\ (forall js, orjson_loads (data payload) = Ret js ->
                 UDFActionInput_init js = Raise e ->
                 from_scheduled_activity orjson_loads UDFActionInput_init event = Raise e).
Proof.
  intros Hty Hp. unfold from_scheduled_activity.
  rewrite Hty, Hp, bool_decide_eq_true_2 by done. cbn [negb].
  change ((payload :: rest) !! 0%nat) with (Some payload). cbv beta iota.
  split.
  - by intros ->.
  - by intros js -> ->.
Qed.

(** X23. Once the first payload of an activity-scheduled event decodes to
    a run input, [from_scheduled_activity] returns a group whatever the
    action key is. The group keeps the event id, the whole key, the id,
    ref, title and description of the task and the decoded input, and has
    no result yet; its name holds no dot, and its namespace and name are
    the two sides of the last dot of the key, or the empty namespace and
    the whole key when the key holds no dot. *)
Theorem scheduled_event_group event payload rest js (action_input : RunActionInput) :
  event_type event = EVENT_TYPE_ACTIVITY_TASK_SCHEDULED ->
  payloads (input (activity_task_scheduled_event_attributes event)) = payload :: rest ->
  orjson_loads (data payload) = Ret js ->
  UDFActionInput_init js = Ret action_input ->
  exists ns name,
    from_scheduled_activity orjson_loads UDFActionInput_init event
    = Ret {| eg_event_id := event_id event;
             udf_namespace := ns;
             udf_name := name;
             udf_key := action (task action_input);
             action_id := id (task action_input);
             action_ref := ref (task action_input);
             action_title := title (task action_input);
             action_description := Dsl.description (task action_input);
             action_input := action_input;
             action_result := None |}
    /\ occurs "." name = false
    /\ (occurs "." (action (task action_input)) = true ->
        action (task action_input) = ns +:+ "." +:+ name)
    /\ (occurs "." (action (task action_input)) = false ->
        ns = "" /\ name = action (task action_input)).
Proof.
  intros Hty Hp Hl Hi.
  destruct (occurs "." (action (task action_input))) eqn:Hk.
  - destruct (last_dot_decomposition _ Hk) as (ns & name & Hkey & Hname).
    exists ns, name. split; [| by repeat split].
    unfold from_scheduled_activity.
    rewrite Hty, Hp, bool_decide_eq_true_2 by done. cbn [negb].
    change ((payload :: rest) !! 0%nat) with (Some payload). cbv beta iota.
    rewrite Hl, Hi. rewrite Hkey at 1. by rewrite (destructure_dot ns name Hname).
  - exists "", (action (task action_input)). split; [| by repeat split].
    unfold from_scheduled_activity.
    rewrite Hty, Hp, bool_decide_eq_true_2 by done. cbn [negb].
    change ((payload :: rest) !! 0%nat) with (Some payload). cbv beta iota.
    rewrite Hl, Hi. by rewrite (destructure_no_dot _ Hk).
Qed.

(** X24. [from_history_event] returns a failure record exactly for the
    activity-failed and the workflow-execution-failed events. The record
    is read from the attributes of that kind alone: message and stack
    trace are copied, and the cause and the application failure info are
    both converted. The cause of the record is never [None]: for a failure
    that has no cause it is the conversion of the empty message. *)
Theorem history_event_failure event :
  ((exists ef, from_history_event MessageToDict event = Ret ef)
   <-> event_type event = EVENT_TYPE_ACTIVITY_TASK_FAILED
       \/ event_type event = EVENT_TYPE_WORKFLOW_EXECUTION_FAILED)
  /\ (forall failure,
         event_type event = EVENT_TYPE_ACTIVITY_TASK_FAILED
         /\ failure = activity_task_failed_event_attributes event
         \/ event_type event = EVENT_TYPE_WORKFLOW_EXECUTION_FAILED
            /\ failure = workflow_execution_failed_event_attributes event ->
         from_history_event MessageToDict event
         = Ret {| ef_message := failure_message failure;
                  ef_stack_trace := failure_stack_trace failure;
                  ef_cause := Some (MessageToDict (failure_cause failure));
                  ef_application_failure_info :=
                    MessageToDict (failure_application_failure_info failure) |})
  /\ (forall ef, from_history_event MessageToDict event = Ret ef -> ef_cause ef <> None).
Proof.
  unfold from_history_event. split; [split | split].
  - intros [ef H].
    destruct (decide (event_type event = EVENT_TYPE_ACTIVITY_TASK_FAILED)); [by left |].
    destruct (decide (event_type event = EVENT_TYPE_WORKFLOW_EXECUTION_FAILED));
      [by right |].
    by rewrite !bool_decide_eq_false_2 in H.
  - intros [-> | ->]; cbn; by eexists.
  - intros failure [[Hty ->] | [Hty ->]]; rewrite Hty; cbn [bool_decide decide_rel];
      reflexivity.
  - intros ef.
    destruct (bool_decide (event_type event = EVENT_TYPE_ACTIVITY_TASK_FAILED));
      [by intros [= <-] |].
    destruct (bool_decide (event_type event = EVENT_TYPE_WORKFLOW_EXECUTION_FAILED));
      [by intros [= <-] | discriminate].
Qed.

End Facts.

Import CorrelatorExamples Supplement.

(** Witness of X18: a slug with the default delimiter. *)
Lemma destructure_pieces_witness :
  exists stem leaf,
    destructure_slugified_namespace "integrations__chat__greet" default_delimiter
    = Ret (String.concat "." stem, leaf)
    /\ String.concat default_delimiter (stem ++ [leaf]) = "integrations__chat__greet".
Proof.
  apply (destructure_pieces "integrations__chat__greet" default_delimiter).
  discriminate.
Defined.

(** Witness of X19: the Slack key. *)
Lemma destructure_dotted_key_witness :
  exists ns name,
    destructure_slugified_namespace "integrations.slack.post_message" "." = Ret (ns, name)
    /\ occurs "." name = false
    /\ "integrations.slack.post_message" = ns +:+ "." +:+ name.
Proof.
  destruct (destructure_dotted_key "integrations.slack.post_message")
    as (ns & name & Hd & Hname & Hkey & _).
  exists ns, name. split; [exact Hd |]. split; [exact Hname |]. by apply Hkey.
Defined.

(** Witness of X20: the key of [add] registered under [core]. *)
Lemma registered_key_destructures_witness :
  destructure_slugified_namespace "core.add" "." = Ret ("core", "add").
Proof.
  apply (registered_key_destructures Examples.core_args Examples.add). reflexivity.
Defined.

(** Witness of X21: a scheduled event with an empty payload list. *)
Lemma scheduled_event_without_payload_witness :
  exists msg,
    from_scheduled_activity loads init (event_of 7 EVENT_TYPE_ACTIVITY_TASK_SCHEDULED [])
    = Raise (IndexError msg).
Proof.
  apply (scheduled_event_without_payload string string loads init
           (event_of 7 EVENT_TYPE_ACTIVITY_TASK_SCHEDULED [])); reflexivity.
Defined.

(** Witness of X22: a first payload that is valid JSON but no run input. *)
Lemma decoding_errors_propagate_witness :
  from_scheduled_activity loads init
    (event_of 7 EVENT_TYPE_ACTIVITY_TASK_SCHEDULED [stray_payload; slack_payload])
  = Raise (ValidationError "task: field required").
Proof.
  destruct (decoding_errors_propagate string string loads init
              (event_of 7 EVENT_TYPE_ACTIVITY_TASK_SCHEDULED [stray_payload; slack_payload])
              stray_payload [slack_payload] (ValidationError "task: field required")
              eq_refl eq_refl) as [_ Hinit].
  apply (Hinit "not the input"); reflexivity.
Defined.

(** Witness of X23: the Slack run. *)
Lemma scheduled_event_group_witness :
  exists ns name,
    from_scheduled_activity loads init
      (event_of 7 EVENT_TYPE_ACTIVITY_TASK_SCHEDULED [slack_payload])
    = Ret {| eg_event_id := 7;
             udf_namespace := ns;
             udf_name := name;
             udf_key := "integrations.slack.post_message";
             action_id := None;
             action_ref := "notify";
             action_title := "notify";
             action_description := "";
             action_input := slack_input;
             action_result := None |}
    /\ "integrations.slack.post_message" = ns +:+ "." +:+ name.
Proof.
  destruct (scheduled_event_group string string loads init
              (event_of 7 EVENT_TYPE_ACTIVITY_TASK_SCHEDULED [slack_payload])
              slack_payload [] "slack-run" slack_input
              eq_refl eq_refl eq_refl eq_refl)
    as (ns & name & Hg & _ & Hkey & _).
  exists ns, name. split; [exact Hg |]. by apply Hkey.
Defined.

(** Witness of X24: an activity-failed event with a cause, and a
    workflow-execution-failed event whose failure has none. *)
Lemma history_event_failure_witness :
  from_history_event to_dict failed_event
  = Ret {| ef_message := "upstream timed out";
           ef_stack_trace := "Traceback (most recent call last)";
           ef_cause := Some "cause: connection reset";
           ef_application_failure_info := "type: TimeoutError" |}
  /\ from_history_event to_dict (event_of 11 EVENT_TYPE_WORKFLOW_EXECUTION_FAILED [])
     = Ret {| ef_message := "";
              ef_stack_trace := "";
              ef_cause := Some "";
              ef_application_failure_info := "" |}.
Proof.
  split.
  - destruct (history_event_failure string string to_dict failed_event) as (_ & Hrec & _).
    apply (Hrec timeout_failure). left. split; reflexivity.
  - destruct (history_event_failure string string to_dict
                (event_of 11 EVENT_TYPE_WORKFLOW_EXECUTION_FAILED []))
      as (_ & Hrec & _).
    apply (Hrec no_failure). right. split; reflexivity.
Defined.

End CorrelatorMore.
